(** * Styled multi-sheet catalog generation

    A shallow embedding of the two catalog generators
    [generate_cpp_functions_catalog.py] and
    [generate_datastructures_catalog.py].

    Both scripts turn lists of Python dictionaries into pandas data
    frames, write one sheet per frame through [pd.ExcelWriter] with the
    openpyxl engine, and then style the sheets.  The first script reloads
    the written file and applies [format_worksheet] to every sheet; the
    second only sets column widths, inside the writer block.

    The literal catalog tables are data, not behaviour: the generation
    blocks are embedded as functions of the tables, so that the same
    definitions run on the catalogs and on small test workbooks.

    The pandas and openpyxl calls the scripts make are modelled by what
    they do to cell values, sheet order and the style attributes that the
    scripts read or assign.  Left outside the model: number formats,
    validation of sheet titles and of colour strings by openpyxl,
    floating-point numbers other than the integral ones pandas makes of
    integers, and the timestamp metadata of the file format.  A
    character of a Rocq string stands for one character of a Python
    string. *)

From stdpp Require Import gmap strings list pretty.
From Stdlib Require Import ZArith Ascii.

Local Open Scope string_scope.
Local Open Scope nat_scope.

(** ** Cell values *)

(** The scalar values of a cell: [None], a string, an integer, or a
    float holding an integer (what pandas makes of the integers of a
    column that also has missing entries). *)
Inductive value : Type :=
  | VNone
  | VStr (s : string)
  | VInt (z : Z)
  | VFloat (z : Z).

#[global] Instance value_eq_dec : EqDecision value.
Proof. solve_decision. Defined.

(** Python's [str] on a cell value; an integral float prints with one
    decimal, as in ["1.0"] (below 10^16 in magnitude). *)
Definition str (v : value) : string :=
  match v with
  | VNone => "None"
  | VStr s => s
  | VInt z => pretty z
  | VFloat z => pretty z +:+ ".0"
  end.

(** Python's [len] on a string. *)
Definition len (s : string) : nat := String.length s.

(** ** openpyxl styles *)

(** A colour is an aRGB string, a palette index or a theme index;
    [Color.index] returns whichever is set. *)
Inductive Color : Type :=
  | RGB (rgb : string)
  | Indexed (i : Z)
  | Theme (t : Z).

(** openpyxl stores a six-digit colour string as aRGB with alpha [00]. *)
Definition aRGB (s : string) : string :=
  if String.length s =? 6 then "00" +:+ s else s.

Record PatternFill : Type := mkPatternFill {
  fill_type : option string;
  start_color : Color;
  end_color : Color
}.

Record Font : Type := mkFont {
  f_bold : bool;
  f_color : option Color;
  f_size : option Z
}.

Record Alignment : Type := mkAlignment {
  horizontal : option string;
  vertical : option string;
  wrap_text : option bool
}.

Record Side : Type := mkSide {
  border_style : option string;
  side_color : option Color
}.

Record Border : Type := mkBorder {
  b_left : Side;
  b_right : Side;
  b_top : Side;
  b_bottom : Side
}.

(** The styles of a cell nobody has styled. *)
Definition default_fill : PatternFill :=
  mkPatternFill None (RGB "00000000") (RGB "00000000").
Definition default_font : Font := mkFont false None None.
Definition default_alignment : Alignment := mkAlignment None None None.
Definition default_side : Side := mkSide None None.
Definition default_border : Border :=
  mkBorder default_side default_side default_side default_side.

(** ** Cells and worksheets *)

Record Cell : Type := mkCell {
  value_of : value;
  fill : PatternFill;
  font : Font;
  alignment : Alignment;
  border : Border
}.

(** The cell openpyxl creates when a coordinate without a cell is
    visited. *)
Definition blank : Cell :=
  mkCell VNone default_fill default_font default_alignment default_border.

Definition set_value (v : value) (c : Cell) : Cell :=
  mkCell v (fill c) (font c) (alignment c) (border c).
Definition set_fill (f : PatternFill) (c : Cell) : Cell :=
  mkCell (value_of c) f (font c) (alignment c) (border c).
Definition set_font (f : Font) (c : Cell) : Cell :=
  mkCell (value_of c) (fill c) f (alignment c) (border c).
Definition set_alignment (a : Alignment) (c : Cell) : Cell :=
  mkCell (value_of c) (fill c) (font c) a (border c).
Definition set_border (b : Border) (c : Cell) : Cell :=
  mkCell (value_of c) (fill c) (font c) (alignment c) b.

(** A worksheet: its cells row by row from A1 (row [i] of the list is
    sheet row [i+1], holding the cells of columns 1, 2, ... that exist),
    the auto-filter range, the frozen-pane anchor, and the column widths
    by column letter. *)
Record Worksheet : Type := mkWorksheet {
  rows : list (list Cell);
  auto_filter_ref : option string;
  freeze_panes : option string;
  column_dimensions : gmap string nat
}.

(** [ws.max_column] and [ws.max_row]: both are 1 on a sheet without
    cells. *)
Definition max_column (rs : list (list Cell)) : nat :=
  foldr (λ r m, Nat.max (length r) m) 1 rs.
Definition max_row (rs : list (list Cell)) : nat :=
  Nat.max 1 (length rs).

(** Iterating over a row or a column creates the missing cells of the
    sheet's bounding box. *)
Definition pad (n : nat) (row : list Cell) : list Cell :=
  row ++ replicate (n - length row) blank.

(** ** [get_column_letter] *)

(** The letters of a column index, least significant first: the loop of
    openpyxl's [get_column_letter]. *)
Fixpoint column_letters (fuel col_idx : nat) : list ascii :=
  match fuel with
  | O => []
  | S fuel' =>
    if col_idx =? 0 then []
    else
      let q := col_idx / 26 in
      let r := col_idx mod 26 in
      if r =? 0
      then ascii_of_nat (26 + 64) :: column_letters fuel' (q - 1)
      else ascii_of_nat (r + 64) :: column_letters fuel' q
  end.

Definition get_column_letter (col_idx : nat) : string :=
  String.string_of_list_ascii (rev (column_letters col_idx col_idx)).

(** [ws.dimensions] once row 1 holds cells: the range from A1 to the last
    column and row. *)
Definition dimensions (rs : list (list Cell)) : string :=
  "A1:" +:+ get_column_letter (max_column rs) +:+ pretty (max_row rs).

(** ** Column widths *)

(** Column [j] (counted from 0) of the bounding box. *)
Definition column_of (rs : list (list Cell)) (j : nat) : list Cell :=
  map (λ r, nth j r blank) rs.

(** [ws.columns]: nothing on a sheet without cells, else the columns
    1 .. [max_column] with their index. *)
Definition ws_columns (rs : list (list Cell)) : list (nat * list Cell) :=
  match rs with
  | [] => []
  | _ => map (λ j, (S j, column_of rs j)) (seq 0 (max_column rs))
  end.

(** The inner loop over the cells of one column. *)
Definition column_max_length (column : list Cell) : nat :=
  foldl (λ max_length cell,
           if max_length <? len (str (value_of cell))
           then len (str (value_of cell))
           else max_length)
        0 column.

(** The loop over [ws.columns], with the margin and the cap of the
    calling script. *)
Definition adjust_column_widths (margin cap : nat)
    (rs : list (list Cell)) (dims : gmap string nat) : gmap string nat :=
  foldl (λ dims (col : nat * list Cell),
           let max_length := column_max_length col.2 in
           let column_letter := get_column_letter col.1 in
           let adjusted_width := Nat.min (max_length + margin) cap in
           <[column_letter := adjusted_width]> dims)
        dims (ws_columns rs).

(** The cells that exist after [ws.columns] was iterated. *)
Definition materialize (rs : list (list Cell)) : list (list Cell) :=
  map (pad (max_column rs)) rs.

(** ** [format_worksheet] *)

Definition UNFILLED_COLOR : string := "00000000".

(** [cell.fill.start_color.index == UNFILLED_COLOR] *)
Definition is_unfilled (c : Cell) : bool :=
  match start_color (fill c) with
  | RGB s => String.eqb s UNFILLED_COLOR
  | _ => false
  end.

Definition header_fill (header_color : string) : PatternFill :=
  mkPatternFill (Some "solid") (RGB (aRGB header_color)) (RGB (aRGB header_color)).
Definition header_font : Font :=
  mkFont true (Some (RGB (aRGB "FFFFFF"))) (Some 11%Z).
Definition header_alignment : Alignment :=
  mkAlignment (Some "center") (Some "center") (Some true).
Definition border_side : Side :=
  mkSide (Some "thin") (Some (RGB (aRGB "000000"))).
Definition thin_border : Border :=
  mkBorder border_side border_side border_side border_side.
Definition light_fill : PatternFill :=
  mkPatternFill (Some "solid") (RGB (aRGB "F2F2F2")) (RGB (aRGB "F2F2F2")).

(** The body of the loop over [ws[1]]. *)
Definition style_header_cell (header_color : string) (c : Cell) : Cell :=
  mkCell (value_of c) (header_fill header_color) header_font
         header_alignment thin_border.

(** [ws[1]]: the first row, with its cells up to [max_column]. *)
Definition row1 (rs : list (list Cell)) : list Cell :=
  pad (max_column rs) (hd [] rs).

(** The guarded assignment of the banding fill. *)
Definition band_cell (c : Cell) : Cell :=
  if is_unfilled c then set_fill light_fill c else c.

(** The loop over [enumerate(ws.iter_rows(min_row=2), start=2)]. *)
Fixpoint band_rows (row_idx : nat) (rs : list (list Cell)) : list (list Cell) :=
  match rs with
  | [] => []
  | row :: rest =>
    let row' := if row_idx mod 2 =? 0 then map band_cell row else row in
    map (set_border thin_border) row' :: band_rows (S row_idx) rest
  end.

Definition format_worksheet (ws : Worksheet) (header_color : string)
    (freeze : bool) : Worksheet :=
  (* header row *)
  let rs1 := map (style_header_cell header_color) (row1 (rows ws)) :: tl (rows ws) in
  (* auto-filter *)
  let ref := Some (dimensions rs1) in
  (* freeze panes *)
  let fp := if freeze then Some "B2" else freeze_panes ws in
  (* column widths *)
  let dims := adjust_column_widths 3 60 rs1 (column_dimensions ws) in
  let rs2 := materialize rs1 in
  (* alternate row colours and borders *)
  let rs3 := hd [] rs2 :: band_rows 2 (tl rs2) in
  mkWorksheet rs3 ref fp dims.

(** The width loop of the data-structures script, run on one sheet of
    the writer. *)
Definition auto_adjust_widths (worksheet : Worksheet) : Worksheet :=
  mkWorksheet (materialize (rows worksheet))
              (auto_filter_ref worksheet)
              (freeze_panes worksheet)
              (adjust_column_widths 2 50 (rows worksheet)
                                    (column_dimensions worksheet)).

(** ** Tables and pandas data frames *)

(** A record is a Python dictionary literal: its keys in insertion
    order, each with its value. *)
Definition record : Type := list (string * value).

(** A table of a catalog: the sheet it is written to and its records. *)
Record Table : Type := mkTable {
  sheet_name : string;
  records : list record
}.

(** The field names of a table: the keys of its first record. *)
Definition table_fields (t : Table) : list string :=
  map fst (hd [] (records t)).

Record DataFrame : Type := mkDataFrame {
  df_columns : list string;
  df_values : list (list value)
}.

(** [record[k]], or the missing marker (NaN, rendered as [VNone]). *)
Definition record_get (r : record) (k : string) : value :=
  match List.find (λ kv, String.eqb kv.1 k) r with
  | Some kv => kv.2
  | None => VNone
  end.

(** The distinct elements of a list, each at its first appearance. *)
Definition unique_in_order (l : list string) : list string :=
  foldl (λ seen k, if bool_decide (k ∈ seen) then seen else (seen ++ [k])%list)
        [] l.

(** The columns pandas gives a frame built from dictionaries: every key,
    in the order of its first appearance. *)
Definition union_keys (rs : list record) : list string :=
  unique_in_order (concat (map (map fst) rs)).

(** The type pandas infers for a column: a column without strings that
    holds a number and also a missing entry or a float is stored as
    floating point, and its integers become floats. *)
Definition is_number (v : value) : bool :=
  match v with
  | VInt _ | VFloat _ => true
  | _ => false
  end.

Definition float_column (column : list value) : bool :=
  forallb (λ v, match v with VStr _ => false | _ => true end) column
  && existsb is_number column
  && existsb (λ v, match v with VNone | VFloat _ => true | _ => false end) column.

Definition to_float (v : value) : value :=
  match v with
  | VInt z => VFloat z
  | _ => v
  end.

(** The entry of record [r] in column [k] of the frame. *)
Definition frame_entry (rs : list record) (r : record) (k : string) : value :=
  if float_column (map (λ r', record_get r' k) rs)
  then to_float (record_get r k)
  else record_get r k.

(** [pd.DataFrame(records)] *)
Definition pd_DataFrame (rs : list record) : DataFrame :=
  let cols := union_keys rs in
  mkDataFrame cols (map (λ r, map (frame_entry rs r) cols) rs).

(** ** The Excel writer *)

(** The style the pandas writer gives the header cells it writes: a font,
    an alignment and a border, never a fill.  Which style that is depends
    on the pandas release, so it is a parameter of the writer; [None]
    stands for a writer that leaves header cells unstyled. *)
Record HeaderStyle : Type := mkHeaderStyle {
  hs_font : Font;
  hs_alignment : Alignment;
  hs_border : Border
}.

(** Missing entries are written as the empty string ([na_rep]). *)
Definition na_rep (v : value) : value :=
  match v with
  | VNone => VStr ""
  | _ => v
  end.

(** The cells [to_excel(..., index=False)] emits: the header row, then
    one row per record; nothing for a frame without columns. *)
Definition excel_cells (hs : option HeaderStyle) (df : DataFrame)
    : list (list (value * option HeaderStyle)) :=
  match df_columns df with
  | [] => []
  | cols =>
    map (λ c, (VStr c, hs)) cols
    :: map (map (λ v, (na_rep v, None))) (df_values df)
  end.

(** Writing one cell: the value is assigned, and the style when the
    writer has one for the cell. *)
Definition write_cell (w : value * option HeaderStyle) (xcell : Cell) : Cell :=
  let xcell := set_value w.1 xcell in
  match w.2 with
  | Some hs =>
    set_border (hs_border hs)
      (set_alignment (hs_alignment hs) (set_font (hs_font hs) xcell))
  | None => xcell
  end.

Fixpoint write_row (ws : list (value * option HeaderStyle)) (old : list Cell)
    : list Cell :=
  match ws, old with
  | [], _ => old
  | w :: ws', [] => write_cell w blank :: write_row ws' []
  | w :: ws', c :: old' => write_cell w c :: write_row ws' old'
  end.

Fixpoint write_rows (wss : list (list (value * option HeaderStyle)))
    (old : list (list Cell)) : list (list Cell) :=
  match wss, old with
  | [], _ => old
  | ws :: wss', [] => write_row ws [] :: write_rows wss' []
  | ws :: wss', r :: old' => write_row ws r :: write_rows wss' old'
  end.

(** A workbook of openpyxl: its sheets by title, in sheet order. *)
Definition Book : Type := list (string * Worksheet).

(** The writer puts the cells on the sheet of that name when the book
    has one, and on a new last sheet otherwise. *)
Fixpoint write_cells (name : string)
    (cells : list (list (value * option HeaderStyle))) (book : Book) : Book :=
  match book with
  | [] => [(name, mkWorksheet (write_rows cells []) None None ∅)]
  | (n, ws) :: rest =>
    if String.eqb n name
    then (n, mkWorksheet (write_rows cells (rows ws)) (auto_filter_ref ws)
                         (freeze_panes ws) (column_dimensions ws)) :: rest
    else (n, ws) :: write_cells name cells rest
  end.

(** [df.to_excel(writer, sheet_name=name, index=False)] *)
Definition to_excel (hs : option HeaderStyle) (df : DataFrame) (name : string)
    (book : Book) : Book :=
  write_cells name (excel_cells hs df) book.

(** ** Saving and loading *)

Inductive exn : Type :=
  | IndexError
  | FileNotFoundError.

Definition result (A : Type) : Type := exn + A.

#[global] Instance result_bind : MBind result :=
  λ A B k m, match m with
             | inl e => inl e
             | inr a => k a
             end.

(** A cell holding the empty string is stored without a value and is
    read back as [None]; an integral float is stored without decimals and
    is read back as an integer. *)
Definition stored_value (v : value) : value :=
  match v with
  | VStr "" => VNone
  | VFloat z => VInt z
  | _ => v
  end.

(** A cell as a saved file holds it. *)
Definition stored_cell (c : Cell) : Cell :=
  set_value (stored_value (value_of c)) c.

(** Cells that iteration created and that hold neither a value nor a
    style are kept here; a file omits them, and reading the sheet creates
    them again. *)
Definition stored_sheet (ws : Worksheet) : Worksheet :=
  mkWorksheet (map (map stored_cell) (rows ws))
              (auto_filter_ref ws) (freeze_panes ws) (column_dimensions ws).

Definition stored_book (book : Book) : Book :=
  map (λ s, (s.1, stored_sheet s.2)) book.

(** The content of a saved file, as [load_workbook] reads it.  Saving a
    book without a sheet raises. *)
Definition save (book : Book) : result Book :=
  match book with
  | [] => inl IndexError
  | _ => inr (stored_book book)
  end.

Definition load_workbook (path : string) (fs : gmap string Book) : result Book :=
  match fs !! path with
  | Some book => inr book
  | None => inl FileNotFoundError
  end.

(** ** The two generation blocks *)

(** The writer block shared by both scripts: one [to_excel] call per
    table, in order, on a writer that starts without sheets. *)
Definition write_tables (hs : option HeaderStyle) (tables : list Table) : Book :=
  foldl (λ book t, to_excel hs (pd_DataFrame (records t)) (sheet_name t) book)
        [] tables.

Definition colors : list (string * string) :=
  [ ("STL Algorithms", "4472C4");
    ("Vector Methods", "70AD47");
    ("Map Methods", "FFC000");
    ("Set Methods", "5B9BD5");
    ("Other Containers", "A5A5A5") ].

(** [colors.get(name, default)] *)
Definition colors_get (name default : string) : string :=
  match List.find (λ kv, String.eqb kv.1 name) colors with
  | Some kv => kv.2
  | None => default
  end.

(** The loop over [wb.sheetnames]. *)
Definition format_book (wb : Book) : Book :=
  map (λ s, (s.1, format_worksheet s.2 (colors_get s.1 "4472C4") true)) wb.

(** [generate_cpp_functions_catalog.py]: write, reload, format, save. *)
Definition generate_cpp_functions_catalog (hs : option HeaderStyle)
    (tables : list Table) (output_file : string) (fs : gmap string Book)
    : result (gmap string Book) :=
  written ← save (write_tables hs tables);
  let fs1 := <[output_file := written]> fs in
  wb ← load_workbook output_file fs1;
  formatted ← save (format_book wb);
  inr (<[output_file := formatted]> fs1).

(** The loop over [writer.sheets]. *)
Definition adjust_book (book : Book) : Book :=
  map (λ s, (s.1, auto_adjust_widths s.2)) book.

(** [generate_datastructures_catalog.py]: write, set the column widths of
    every sheet of the writer, save on leaving the block. *)
Definition generate_datastructures_catalog (hs : option HeaderStyle)
    (tables : list Table) (output_path : string) (fs : gmap string Book)
    : result (gmap string Book) :=
  let book := write_tables hs tables in
  let book := adjust_book book in
  written ← save book;
  inr (<[output_path := written]> fs).

(** The header style of the pandas releases that style headers: bold,
    thin borders, centred. *)
Definition pandas_header_style : HeaderStyle :=
  let thin := mkSide (Some "thin") None in
  mkHeaderStyle (mkFont true None None)
                (mkAlignment (Some "center") (Some "top") None)
                (mkBorder thin thin thin thin).

(** The scenario of the specification. *)
Definition demo : list Table :=
  [ mkTable "Demo"
      [ [("Name", VStr "a"); ("Value", VInt 1)];
        [("Name", VStr "b"); ("Value", VInt 2)] ] ].

(** ** Notions used to state the properties *)

(** The content of the file at [path] after a run, if the run succeeded. *)
Definition rendered (r : result (gmap string Book)) (path : string)
    : option Book :=
  match r with
  | inr fs => fs !! path
  | inl _ => None
  end.

(** The cell at row [i], column [j] (both counted from 0): a cell that
    does not exist reads as a blank one. *)
Definition cell_at (ws : Worksheet) (i j : nat) : Cell :=
  nth j (nth i (rows ws) []) blank.

(** The maximum textual length of the cell values of a column: the
    quantity the width rule of the specification speaks of. *)
Definition max_text_length (column : list Cell) : nat :=
  foldr (λ c m, Nat.max (len (str (value_of c))) m) 0 column.

(** The schema of a table is consistent when its records all carry the
    table's field names in the same order, there is at least one field,
    and the field names are distinct, non-empty strings. *)
Definition consistent_schema (t : Table) : Prop :=
  table_fields t ≠ [] ∧
  NoDup (table_fields t) ∧
  ("" ∉ table_fields t) ∧
  Forall (λ r, map fst r = table_fields t) (records t).

(** The workbooks the report builder is specified for. *)
Definition valid_workbook (tables : list Table) : Prop :=
  tables ≠ [] ∧
  NoDup (map sheet_name tables) ∧
  Forall consistent_schema tables.

(** The number a string of column letters denotes, least significant
    letter first. *)
Fixpoint letters_value (l : list ascii) : nat :=
  match l with
  | [] => 0
  | a :: l' => (nat_of_ascii a - 64) + 26 * letters_value l'
  end.

(** Assigning a list of widths in order, and the width a key ends up
    with. *)
Definition assign_all (dims : gmap string nat) (l : list (string * nat))
    : gmap string nat :=
  foldl (λ d kv, <[kv.1 := kv.2]> d) dims l.

Fixpoint last_assigned (k : string) (l : list (string * nat)) : option nat :=
  match l with
  | [] => None
  | kv :: l' =>
    match last_assigned k l' with
    | Some v => Some v
    | None => if bool_decide (kv.1 = k) then Some kv.2 else None
    end
  end.

(** The widths the loop over the columns assigns. *)
Definition width_entries (margin cap : nat) (rs : list (list Cell))
    : list (string * nat) :=
  map (λ col : nat * list Cell,
         (get_column_letter col.1,
          Nat.min (column_max_length col.2 + margin) cap))
      (ws_columns rs).

(** The cells of a formatted sheet, in closed form: the styled first
    row, then the banded and bordered rows below it, all of them as wide
    as the sheet. *)
Definition formatted_rows (header_color : string) (rs : list (list Cell))
    : list (list Cell) :=
  let n := max_column rs in
  map (style_header_cell header_color) (pad n (hd [] rs))
  :: band_rows 2 (map (pad n) (tl rs)).

(** The first step of [format_worksheet]: row 1 with the header style. *)
Definition header_styled (header_color : string) (rs : list (list Cell))
    : list (list Cell) :=
  map (style_header_cell header_color) (row1 rs) :: tl rs.

(** The values of the cells of a sheet, row by row. *)
Definition sheet_values (ws : Worksheet) : list (list value) :=
  map (map value_of) (rows ws).

(** The file each script leaves behind, in closed form. *)
Definition cpp_output (hs : option HeaderStyle) (tables : list Table) : Book :=
  stored_book (format_book (stored_book (write_tables hs tables))).

Definition ds_output (hs : option HeaderStyle) (tables : list Table) : Book :=
  stored_book (adjust_book (write_tables hs tables)).

(** What holds of every sheet the writer block produces: no auto-filter,
    no frozen pane, no column width, no filled cell. *)
Definition plain_sheet (ws : Worksheet) : Prop :=
  auto_filter_ref ws = None ∧
  freeze_panes ws = None ∧
  column_dimensions ws = ∅ ∧
  Forall (Forall (λ c, fill c = default_fill)) (rows ws).

(** The sheet the writer makes of one table on a book that has no sheet
    of that name. *)
Definition table_sheet (hs : option HeaderStyle) (t : Table) : string * Worksheet :=
  (sheet_name t,
   mkWorksheet (write_rows (excel_cells hs (pd_DataFrame (records t))) [])
               None None ∅).

(** A sheet whose cells form a full rectangle of [n] columns. *)
Definition table_shaped (n : nat) (ws : Worksheet) : Prop :=
  1 ≤ n ∧ rows ws ≠ [] ∧ Forall (λ r, length r = n) (rows ws).

(** The values a file holds for a table with a consistent schema: the
    field names, then the values of each record, as stored. *)
Definition table_values (t : Table) : list (list value) :=
  map VStr (table_fields t)
  :: map (λ r : record, map (λ kv, stored_value kv.2) r) (records t).

(** The textual width of a list of values: the largest [len(str(v))]. *)
Definition values_width (vs : list value) : nat :=
  foldr (λ v m, Nat.max (len (str v)) m) 0 vs.

(** Column [j] (counted from 0) of a grid of values. *)
Definition column_values (vss : list (list value)) (j : nat) : list value :=
  map (λ r, nth j r VNone) vss.

(** The header and the rows of the frame pandas builds from a list of
    records, a missing entry shown as [VNone]. *)
Definition frame_values (rs : list record) : list (list value) :=
  map VStr (union_keys rs)
  :: map (λ r, map (record_get r) (union_keys rs)) rs.

(** The values the writer puts on the sheet of a table, before the file
    is saved: the column names, then the entries of the frame, a missing
    one as the empty string. *)
Definition written_values (t : Table) : list (list value) :=
  map VStr (df_columns (pd_DataFrame (records t)))
  :: map (map na_rep) (df_values (pd_DataFrame (records t))).

(** Two sheets that differ at most in the font, alignment and border of
    the cells of row 1. *)
Definition same_below_header_style (ws1 ws2 : Worksheet) : Prop :=
  Forall2 (λ c1 c2, value_of c1 = value_of c2 ∧ fill c1 = fill c2)
          (hd [] (rows ws1)) (hd [] (rows ws2))
  ∧ tl (rows ws1) = tl (rows ws2)
  ∧ (rows ws1 = [] ↔ rows ws2 = [])
  ∧ auto_filter_ref ws1 = auto_filter_ref ws2
  ∧ freeze_panes ws1 = freeze_panes ws2
  ∧ column_dimensions ws1 = column_dimensions ws2.

(** The font, alignment and border of a header cell as the writer leaves
    it: those of its header style, or the defaults when it has none. *)
Definition writer_font (hs : option HeaderStyle) : Font :=
  match hs with Some h => hs_font h | None => default_font end.
Definition writer_alignment (hs : option HeaderStyle) : Alignment :=
  match hs with Some h => hs_alignment h | None => default_alignment end.
Definition writer_border (hs : option HeaderStyle) : Border :=
  match hs with Some h => hs_border h | None => default_border end.

(** What holds of the cells of every sheet the writer block produces:
    the cells of row 1 carry the writer's header style, the cells below
    carry no style, and no row is longer than row 1. *)
Definition writer_styled (hs : option HeaderStyle) (rs : list (list Cell)) : Prop :=
  Forall (λ c, font c = writer_font hs
               ∧ alignment c = writer_alignment hs
               ∧ border c = writer_border hs) (hd [] rs)
  ∧ Forall (Forall (λ c, font c = default_font
                         ∧ alignment c = default_alignment
                         ∧ border c = default_border)) (tl rs)
  ∧ Forall (λ r, length r ≤ length (hd [] rs)) rs
  ∧ (rs = [] ∨ 1 ≤ length (hd [] rs)).

(** * Properties *)

(** ** Column letters *)

Lemma letters_value_column_letters fuel n :
  n ≤ fuel → letters_value (column_letters fuel n) = n.
Proof.
  revert n. induction fuel as [|fuel IH]; intros n Hn.
  - by replace n with 0 by lia.
  - cbn [column_letters].
    destruct (Nat.eqb_spec n 0) as [->|Hn0]; [done|].
    pose proof (Nat.div_mod_eq n 26) as Hdm.
    pose proof (Nat.mod_upper_bound n 26 ltac:(lia)) as Hlt.
    destruct (Nat.eqb_spec (n mod 26) 0) as [Hr|Hr].
    + cbn [letters_value]. rewrite nat_ascii_embedding by lia.
      rewrite IH by lia. lia.
    + cbn [letters_value]. rewrite nat_ascii_embedding by lia.
      rewrite IH by lia. lia.
Qed.

Lemma get_column_letter_inj a b :
  get_column_letter a = get_column_letter b → a = b.
Proof.
  unfold get_column_letter. intros H.
  apply (f_equal String.list_ascii_of_string) in H.
  rewrite !String.list_ascii_of_string_of_list_ascii in H.
  apply (f_equal (@rev ascii)) in H. rewrite !rev_involutive in H.
  rewrite <- (letters_value_column_letters a a), <- (letters_value_column_letters b b) by lia.
  by rewrite H.
Qed.

(** ** The width of a column *)

Lemma column_max_length_from (a : nat) (column : list Cell) :
  foldl (λ max_length cell,
           if max_length <? len (str (value_of cell))
           then len (str (value_of cell))
           else max_length) a column
  = Nat.max a (max_text_length column).
Proof.
  revert a. induction column as [|c col IH]; intros a.
  - cbn. lia.
  - cbn [foldl]. rewrite IH.
    change (max_text_length (c :: col))
      with (Nat.max (len (str (value_of c))) (max_text_length col)).
    destruct (Nat.ltb_spec a (len (str (value_of c)))); lia.
Qed.

Lemma column_max_length_spec (column : list Cell) :
  column_max_length column = max_text_length column.
Proof. unfold column_max_length. by rewrite column_max_length_from. Qed.

(** ** Assigning widths *)

Lemma assign_all_lookup (l : list (string * nat)) (d : gmap string nat) k :
  assign_all d l !! k = from_option Some (d !! k) (last_assigned k l).
Proof.
  revert d. induction l as [|kv l IH]; intros d; cbn; [done|].
  unfold assign_all in *. cbn. rewrite IH.
  destruct (last_assigned k l); cbn; [done|].
  case_bool_decide as Hk.
  - subst. by rewrite lookup_insert_eq.
  - by rewrite lookup_insert_ne.
Qed.

Lemma assign_all_twice (l : list (string * nat)) (d : gmap string nat) :
  assign_all (assign_all d l) l = assign_all d l.
Proof.
  apply map_eq. intros k. rewrite !assign_all_lookup.
  by destruct (last_assigned k l).
Qed.

Lemma last_assigned_NoDup (l : list (string * nat)) k v :
  NoDup (l.*1) → (k, v) ∈ l → last_assigned k l = Some v.
Proof.
  induction l as [|[k' v'] l IH]; intros Hnd Hin; [by apply elem_of_nil in Hin|].
  cbn in *. apply NoDup_cons in Hnd as [Hk' Hnd].
  apply elem_of_cons in Hin as [Heq|Hin].
  - inversion Heq; subst.
    destruct (last_assigned k' l) as [w|] eqn:Hw.
    + exfalso. apply Hk'. clear -Hw.
      induction l as [|[a b] l IH]; cbn in *; [done|].
      destruct (last_assigned k' l); [right; by apply IH|].
      case_bool_decide; [subst; left|done].
    + by rewrite bool_decide_true.
  - by rewrite (IH Hnd Hin).
Qed.

Lemma adjust_column_widths_entries margin cap rs (d : gmap string nat) :
  adjust_column_widths margin cap rs d = assign_all d (width_entries margin cap rs).
Proof.
  unfold adjust_column_widths, assign_all, width_entries.
  generalize (ws_columns rs). intros l. revert d.
  induction l as [|c l IH]; intros d; cbn; [done|]. by rewrite IH.
Qed.

(** ** The shape of a sheet *)

Lemma length_pad n r : length (pad n r) = Nat.max n (length r).
Proof. unfold pad. rewrite length_app, length_replicate. lia. Qed.

Lemma pad_id n r : n ≤ length r → pad n r = r.
Proof.
  intros H. unfold pad. replace (n - length r) with 0 by lia.
  apply app_nil_r.
Qed.

Lemma nth_replicate_blank m k : nth k (replicate m blank) blank = blank.
Proof. revert k. induction m as [|m IH]; intros [|k]; cbn; auto. Qed.

Lemma nth_pad n r j : nth j (pad n r) blank = nth j r blank.
Proof.
  unfold pad. destruct (Nat.lt_ge_cases j (length r)) as [Hj|Hj].
  - by rewrite app_nth1.
  - rewrite app_nth2 by done. rewrite (nth_overflow r) by done.
    apply nth_replicate_blank.
Qed.

Lemma max_column_nil : max_column [] = 1.
Proof. done. Qed.

Lemma max_column_cons r rs :
  max_column (r :: rs) = Nat.max (length r) (max_column rs).
Proof. done. Qed.

Lemma max_column_ge1 rs : 1 ≤ max_column rs.
Proof.
  induction rs as [|r rs IH]; [done|]. rewrite max_column_cons. lia.
Qed.

Lemma max_column_elem rs r : r ∈ rs → length r ≤ max_column rs.
Proof.
  induction rs as [|r' rs IH]; intros Hin; [by apply elem_of_nil in Hin|].
  rewrite max_column_cons.
  apply elem_of_cons in Hin as [->|Hin]; [lia|].
  specialize (IH Hin). lia.
Qed.

Lemma max_column_lengths rs rs' :
  map length rs = map length rs' → max_column rs = max_column rs'.
Proof.
  revert rs'. induction rs as [|r rs IH]; intros [|r' rs'] H; try done.
  rewrite !max_column_cons. cbn in H. injection H as Hr Hrs.
  by rewrite Hr, (IH _ Hrs).
Qed.

Lemma max_column_rect n rs :
  1 ≤ n → rs ≠ [] → Forall (λ r, length r = n) rs → max_column rs = n.
Proof.
  intros Hn Hne Hall. induction Hall as [|r rs Hr Hall IH]; [done|].
  rewrite max_column_cons. destruct rs as [|r' rs'].
  - rewrite max_column_nil. lia.
  - rewrite IH by done. lia.
Qed.

Lemma materialize_rect n rs :
  1 ≤ n → Forall (λ r, length r = n) rs → materialize rs = rs.
Proof.
  intros Hn Hall. destruct rs as [|r rs]; [done|].
  unfold materialize. rewrite (max_column_rect n) by done.
  induction Hall as [|r0 rs0 Hr Hall IH]; [done|].
  cbn. rewrite pad_id by lia. by rewrite IH.
Qed.

Lemma band_rows_lengths i rs : map length (band_rows i rs) = map length rs.
Proof.
  revert i. induction rs as [|r rs IH]; intros i; [done|].
  cbn [band_rows map]. rewrite IH. f_equal.
  destruct (i mod 2 =? 0); by rewrite ?length_map.
Qed.

Lemma length_band_rows i rs : length (band_rows i rs) = length rs.
Proof.
  rewrite <- (length_map length (band_rows i rs)), band_rows_lengths.
  apply length_map.
Qed.

Lemma band_rows_Forall_length n i rs :
  Forall (λ r, length r = n) rs → Forall (λ r, length r = n) (band_rows i rs).
Proof.
  intros Hall. revert i. induction Hall as [|r rs Hr Hall IH]; intros i;
    cbn [band_rows]; constructor; [|by apply IH].
  destruct (i mod 2 =? 0); by rewrite ?length_map.
Qed.

Lemma pad_all_length rs :
  Forall (λ r, length r = max_column rs) (map (pad (max_column rs)) rs).
Proof.
  apply Forall_forall. intros r' Hin.
  apply list_elem_of_In, in_map_iff in Hin as (r & <- & Hin).
  apply list_elem_of_In, max_column_elem in Hin. rewrite length_pad. lia.
Qed.

Lemma max_column_header_styled hc rs :
  max_column (header_styled hc rs) = max_column rs.
Proof.
  unfold header_styled, row1. rewrite max_column_cons.
  rewrite length_map, length_pad.
  destruct rs as [|h t]; cbn [hd tl].
  - rewrite max_column_nil. cbn. lia.
  - rewrite max_column_cons. lia.
Qed.

Lemma header_styled_nonempty hc rs : header_styled hc rs ≠ [].
Proof. done. Qed.

Lemma length_header_styled hc rs : length (header_styled hc rs) = max_row rs.
Proof. unfold header_styled, max_row. destruct rs; cbn; lia. Qed.

(** The cells [format_worksheet] leaves behind. *)
Lemma rows_format_worksheet ws hc fp :
  rows (format_worksheet ws hc fp) = formatted_rows hc (rows ws).
Proof.
  unfold format_worksheet, formatted_rows. cbn [rows].
  fold (header_styled hc (rows ws)).
  unfold materialize. rewrite max_column_header_styled.
  unfold header_styled, row1. cbn [map hd tl].
  rewrite pad_id; [done|].
  rewrite length_map, length_pad. lia.
Qed.

Lemma formatted_rows_rect hc rs :
  Forall (λ r, length r = max_column rs) (formatted_rows hc rs).
Proof.
  unfold formatted_rows. constructor.
  - rewrite length_map, length_pad.
    destruct rs as [|h t]; cbn [hd].
    + rewrite max_column_nil. cbn. lia.
    + rewrite max_column_cons. lia.
  - apply band_rows_Forall_length.
    apply Forall_forall. intros r' Hin.
    apply list_elem_of_In, in_map_iff in Hin as (r & <- & Hin).
    assert (r ∈ rs) as Hr.
    { destruct rs as [|h t]; [done|]. right. by apply list_elem_of_In. }
    apply max_column_elem in Hr. rewrite length_pad. lia.
Qed.

Lemma max_column_formatted_rows hc rs :
  max_column (formatted_rows hc rs) = max_column rs.
Proof.
  apply max_column_rect; [apply max_column_ge1|done|apply formatted_rows_rect].
Qed.

Lemma length_formatted_rows hc rs :
  length (formatted_rows hc rs) = max_row rs.
Proof.
  unfold formatted_rows, max_row. cbn [length].
  rewrite length_band_rows, length_map. destruct rs; cbn; lia.
Qed.

(** ** Applying the styles twice *)

Lemma style_header_cell_idem hc c :
  style_header_cell hc (style_header_cell hc c) = style_header_cell hc c.
Proof. done. Qed.

Lemma band_cell_light c : fill c = light_fill → band_cell c = c.
Proof. unfold band_cell, is_unfilled. by intros ->. Qed.

Lemma band_cell_idem c : band_cell (band_cell c) = band_cell c.
Proof.
  assert (band_cell c = if is_unfilled c then set_fill light_fill c else c)
    as E by done.
  destruct (is_unfilled c) eqn:Hc; rewrite E.
  - by apply band_cell_light.
  - unfold band_cell. by rewrite Hc.
Qed.

Lemma band_border_idem b c :
  set_border b (band_cell (set_border b (band_cell c)))
  = set_border b (band_cell c).
Proof.
  assert (band_cell c = if is_unfilled c then set_fill light_fill c else c)
    as E by done.
  destruct (is_unfilled c) eqn:Hc; rewrite E; [done|].
  unfold band_cell, is_unfilled in *. cbn. by rewrite Hc.
Qed.

Lemma band_rows_idem i rs : band_rows i (band_rows i rs) = band_rows i rs.
Proof.
  revert i. induction rs as [|r rs IH]; intros i; [done|].
  cbn [band_rows]. rewrite IH. f_equal.
  destruct (i mod 2 =? 0).
  - rewrite !map_map. apply map_ext. intros c. apply band_border_idem.
  - rewrite !map_map. by apply map_ext.
Qed.

Lemma map_pad_rect n rs :
  Forall (λ r, length r = n) rs → map (pad n) rs = rs.
Proof.
  induction 1 as [|r rs Hr Hall IH]; [done|].
  cbn. rewrite pad_id by lia. by rewrite IH.
Qed.

Lemma formatted_rows_idem hc rs :
  formatted_rows hc (formatted_rows hc rs) = formatted_rows hc rs.
Proof.
  pose proof (formatted_rows_rect hc rs) as Hrect.
  unfold formatted_rows at 1. rewrite max_column_formatted_rows.
  unfold formatted_rows in *. cbn [hd tl].
  apply Forall_cons in Hrect as [Hh Ht].
  rewrite pad_id by lia. rewrite (map_pad_rect _ _ Ht).
  rewrite band_rows_idem. f_equal.
  rewrite map_map. by apply map_ext.
Qed.

(** The header step finds nothing left to do on a formatted sheet. *)
Lemma header_styled_formatted_rows hc rs :
  header_styled hc (formatted_rows hc rs) = formatted_rows hc rs.
Proof.
  pose proof (formatted_rows_rect hc rs) as Hrect.
  unfold header_styled, row1. rewrite max_column_formatted_rows.
  unfold formatted_rows in *. cbn [hd tl].
  apply Forall_cons in Hrect as [Hh Ht].
  rewrite pad_id by lia. f_equal.
  rewrite map_map. by apply map_ext.
Qed.

(** ** Widths depend on the cell values only *)

Lemma max_text_length_values c1 c2 :
  map value_of c1 = map value_of c2 → max_text_length c1 = max_text_length c2.
Proof.
  revert c2. induction c1 as [|a c1 IH]; intros [|b c2] H; try done.
  cbn in H. injection H as Ha Hc.
  change (Nat.max (len (str (value_of a))) (max_text_length c1)
          = Nat.max (len (str (value_of b))) (max_text_length c2)).
  by rewrite Ha, (IH _ Hc).
Qed.

Lemma value_of_nth_map (f : Cell → Cell) l j :
  (∀ c, value_of (f c) = value_of c) →
  value_of (nth j (map f l) blank) = value_of (nth j l blank).
Proof.
  intros Hf. revert j. induction l as [|c l IH]; intros [|j]; cbn; auto.
Qed.

Lemma value_of_band_cell c : value_of (band_cell c) = value_of c.
Proof. unfold band_cell. by destruct (is_unfilled c). Qed.

Lemma column_values_band_rows n i rs j :
  map value_of (column_of (band_rows i (map (pad n) rs)) j)
  = map value_of (column_of rs j).
Proof.
  unfold column_of. revert i. induction rs as [|r rs IH]; intros i; [done|].
  cbn [map band_rows]. rewrite IH. f_equal.
  destruct (i mod 2 =? 0).
  - rewrite !value_of_nth_map; [by rewrite nth_pad|apply value_of_band_cell|done].
  - rewrite !value_of_nth_map; [by rewrite nth_pad|done].
Qed.

Lemma column_values_formatted_rows hc rs j :
  map value_of (column_of (formatted_rows hc rs) j)
  = map value_of (column_of (header_styled hc rs) j).
Proof.
  unfold formatted_rows, header_styled, row1.
  change (column_of (?h :: ?t) j) with (nth j h blank :: column_of t j).
  cbn [map]. by rewrite column_values_band_rows.
Qed.

Lemma width_entries_formatted_rows margin cap hc rs :
  width_entries margin cap (formatted_rows hc rs)
  = width_entries margin cap (header_styled hc rs).
Proof.
  unfold width_entries, ws_columns.
  rewrite max_column_formatted_rows, max_column_header_styled.
  unfold formatted_rows at 1, header_styled at 1.
  rewrite !map_map. apply map_ext. intros j. cbn [fst snd]. f_equal.
  rewrite !column_max_length_spec.
  by rewrite (max_text_length_values _ _ (column_values_formatted_rows hc rs j)).
Qed.

Lemma format_worksheet_eq ws hc fp :
  format_worksheet ws hc fp
  = mkWorksheet (formatted_rows hc (rows ws))
      (Some (dimensions (header_styled hc (rows ws))))
      (if fp then Some "B2" else freeze_panes ws)
      (assign_all (column_dimensions ws)
                  (width_entries 3 60 (header_styled hc (rows ws)))).
Proof.
  pose proof (rows_format_worksheet ws hc fp) as Hrows.
  unfold format_worksheet in *. cbn [rows] in Hrows. rewrite Hrows.
  by rewrite adjust_column_widths_entries.
Qed.

(** C9: [format_worksheet] is idempotent.  Applying it a second time with
    the same header colour and freeze flag leaves every component of the
    worksheet (cells with their fills, fonts, alignments and borders,
    auto-filter range, frozen pane, column widths) as the first
    application left it; and the banding step leaves alone any cell that
    already carries the banding fill. *)
Theorem format_worksheet_idempotent (ws : Worksheet) (hc : string) (fp : bool) :
  format_worksheet (format_worksheet ws hc fp) hc fp = format_worksheet ws hc fp
  ∧ (∀ c, fill c = light_fill → band_cell c = c).
Proof.
  split; [|apply band_cell_light].
  rewrite (format_worksheet_eq (format_worksheet ws hc fp)).
  rewrite (format_worksheet_eq ws). cbn [rows freeze_panes column_dimensions].
  rewrite formatted_rows_idem, header_styled_formatted_rows.
  rewrite width_entries_formatted_rows, assign_all_twice.
  f_equal.
  - unfold dimensions. unfold max_row at 1 2.
    by rewrite max_column_formatted_rows, max_column_header_styled,
      length_formatted_rows, length_header_styled.
  - by destruct fp.
Qed.

(** ** The width each column receives *)

Lemma width_entries_keys margin cap rs :
  rs ≠ [] →
  (width_entries margin cap rs).*1
  = map (λ j, get_column_letter (S j)) (seq 0 (max_column rs)).
Proof.
  intros Hne. unfold width_entries, ws_columns. destruct rs as [|r rs]; [done|].
  generalize (seq 0 (max_column (r :: rs))). intros l.
  induction l as [|j l IH]; [done|]. cbn. f_equal. apply IH.
Qed.

Lemma NoDup_column_letters n :
  NoDup (map (λ j, get_column_letter (S j)) (seq 0 n)).
Proof.
  change (NoDup ((λ j, get_column_letter (S j)) <$> seq 0 n)).
  apply NoDup_fmap_2; [|apply NoDup_seq].
  intros a b Hab. apply get_column_letter_inj in Hab. lia.
Qed.

Lemma width_entries_lookup margin cap rs (d : gmap string nat) j :
  rs ≠ [] → j < max_column rs →
  assign_all d (width_entries margin cap rs) !! get_column_letter (S j)
  = Some (Nat.min (max_text_length (column_of rs j) + margin) cap).
Proof.
  intros Hne Hj. rewrite assign_all_lookup.
  rewrite (last_assigned_NoDup _ _
             (Nat.min (max_text_length (column_of rs j) + margin) cap)); [done| |].
  - rewrite width_entries_keys by done. apply NoDup_column_letters.
  - unfold width_entries, ws_columns. destruct rs as [|r rs]; [done|].
    apply list_elem_of_In, in_map_iff.
    exists (S j, column_of (r :: rs) j). cbn [fst snd]. split.
    + by rewrite column_max_length_spec.
    + apply in_map_iff. exists j. split; [done|]. apply in_seq. lia.
Qed.

Lemma column_values_header_styled hc rs j :
  rs ≠ [] →
  map value_of (column_of (header_styled hc rs) j) = map value_of (column_of rs j).
Proof.
  intros Hne. destruct rs as [|h t]; [done|].
  unfold header_styled, row1, column_of. cbn [hd tl map]. f_equal.
  by rewrite value_of_nth_map, nth_pad.
Qed.

Lemma column_values_materialize rs j :
  column_of (materialize rs) j = column_of rs j.
Proof.
  unfold materialize, column_of. rewrite map_map.
  apply map_ext. intros r. apply nth_pad.
Qed.

(** What each of the two width loops assigns to a column of the sheet
    it is run on. *)
Lemma width_loop_assigns_capped_max_length
    (ws : Worksheet) (hc : string) (fp : bool) (j : nat) :
  j < max_column (rows ws) →
  column_dimensions (format_worksheet ws hc fp) !! get_column_letter (S j)
  = Some (Nat.min
            (max_text_length (column_of (rows (format_worksheet ws hc fp)) j) + 3)
            60)
  ∧ (rows ws ≠ [] →
     column_dimensions (auto_adjust_widths ws) !! get_column_letter (S j)
     = Some (Nat.min
               (max_text_length (column_of (rows (auto_adjust_widths ws)) j) + 2)
               50)).
Proof.
  intros Hj. split.
  - rewrite format_worksheet_eq. cbn [column_dimensions rows].
    rewrite width_entries_lookup;
      [|apply header_styled_nonempty|by rewrite max_column_header_styled].
    by rewrite (max_text_length_values _ _ (column_values_formatted_rows hc (rows ws) j)).
  - intros Hne. unfold auto_adjust_widths. cbn [column_dimensions rows].
    rewrite adjust_column_widths_entries, width_entries_lookup by done.
    by rewrite column_values_materialize.
Qed.

Lemma max_text_length_all_none (l : list Cell) :
  l ≠ [] → Forall (λ c, value_of c = VNone) l → max_text_length l = 4.
Proof.
  intros Hne Hall. induction Hall as [|c l Hc Hall IH]; [done|].
  change (Nat.max (len (str (value_of c))) (max_text_length l) = 4).
  rewrite Hc. destruct l as [|c' l']; [done|].
  rewrite IH by done. done.
Qed.

(** On a sheet that holds [None] cells, as a reloaded sheet does, the
    width loop of [format_worksheet] counts each of them as 4. *)
Lemma format_worksheet_none_column
    (ws : Worksheet) (hc : string) (fp : bool) (j : nat)
    (h : list Cell) (t : list (list Cell)) :
  rows ws = h :: t →
  t ≠ [] →
  j < max_column (rows ws) →
  len (str (value_of (nth j h blank))) < 4 →
  Forall (λ r, value_of (nth j r blank) = VNone) t →
  column_dimensions (format_worksheet ws hc fp) !! get_column_letter (S j)
  = Some (4 + 3).
Proof.
  intros Hrows Ht Hj Hh Hall.
  assert (max_text_length (column_of (rows ws) j) = 4) as HL.
  { rewrite Hrows. unfold column_of. cbn [map].
    change (Nat.max (len (str (value_of (nth j h blank))))
                    (max_text_length (map (λ r, nth j r blank) t)) = 4).
    rewrite max_text_length_all_none; [lia|by destruct t|].
    apply Forall_forall. intros c Hc.
    apply list_elem_of_In, in_map_iff in Hc as (r & <- & Hr).
    apply list_elem_of_In in Hr. by apply (proj1 (Forall_forall _ _) Hall). }
  assert (rows ws ≠ []) as Hne by (by rewrite Hrows).
  rewrite format_worksheet_eq. cbn [column_dimensions].
  rewrite width_entries_lookup;
    [|apply header_styled_nonempty|by rewrite max_column_header_styled].
  rewrite (max_text_length_values _ _ (column_values_header_styled hc _ j Hne)).
  by rewrite HL.
Qed.

(** ** The writer block *)

Lemma write_cells_nonempty name cells book : write_cells name cells book ≠ [].
Proof. destruct book as [|[n ws] rest]; cbn; [done|]. by destruct (String.eqb n name). Qed.

Lemma write_cells_names name cells (book : Book) :
  (write_cells name cells book).*1
  = if bool_decide (name ∈ book.*1) then book.*1 else (book.*1 ++ [name])%list.
Proof.
  induction book as [|[n ws] rest IH]; [done|].
  cbn [write_cells]. destruct (String.eqb_spec n name) as [->|Hne].
  - cbn. rewrite bool_decide_true; [done|left].
  - cbn. rewrite IH. case_bool_decide as Hin.
    + rewrite bool_decide_true; [done|by right].
    + rewrite bool_decide_false; [done|].
      intros [?|?]%elem_of_cons; congruence.
Qed.

Lemma write_tables_from_names hs tables (book : Book) :
  (foldl (λ book t, to_excel hs (pd_DataFrame (records t)) (sheet_name t) book)
         book tables).*1
  = foldl (λ seen k, if bool_decide (k ∈ seen) then seen else (seen ++ [k])%list)
          (book.*1) (map sheet_name tables).
Proof.
  revert book. induction tables as [|t tables IH]; intros book; [done|].
  cbn [foldl map]. rewrite IH. unfold to_excel. by rewrite write_cells_names.
Qed.

Lemma write_tables_names hs tables :
  (write_tables hs tables).*1 = unique_in_order (map sheet_name tables).
Proof. apply (write_tables_from_names hs tables []). Qed.

Lemma write_tables_nonempty hs tables : tables ≠ [] → write_tables hs tables ≠ [].
Proof.
  intros Hne. destruct (exists_last Hne) as (l & t & ->).
  unfold write_tables. rewrite foldl_snoc. apply write_cells_nonempty.
Qed.

(** ** The files the scripts write *)

Lemma stored_book_nonempty book : book ≠ [] → stored_book book ≠ [].
Proof. by destruct book. Qed.

Lemma format_book_nonempty book : book ≠ [] → format_book book ≠ [].
Proof. by destruct book. Qed.

Lemma save_nonempty book : book ≠ [] → save book = inr (stored_book book).
Proof. by destruct book. Qed.

Lemma generate_cpp_functions_catalog_eq hs tables path fs :
  tables ≠ [] →
  generate_cpp_functions_catalog hs tables path fs
  = inr (<[path := cpp_output hs tables]>
           (<[path := stored_book (write_tables hs tables)]> fs)).
Proof.
  intros Hne. unfold generate_cpp_functions_catalog.
  rewrite save_nonempty by by apply write_tables_nonempty.
  cbn. unfold load_workbook. rewrite lookup_insert_eq. cbn.
  rewrite save_nonempty; [done|].
  by apply format_book_nonempty, stored_book_nonempty, write_tables_nonempty.
Qed.

Lemma generate_datastructures_catalog_eq hs tables path fs :
  tables ≠ [] →
  generate_datastructures_catalog hs tables path fs
  = inr (<[path := ds_output hs tables]> fs).
Proof.
  intros Hne. unfold generate_datastructures_catalog.
  rewrite save_nonempty; [done|].
  pose proof (write_tables_nonempty hs tables Hne).
  unfold adjust_book. by destruct (write_tables hs tables).
Qed.

Lemma rendered_cpp hs tables path fs :
  rendered (generate_cpp_functions_catalog hs tables path fs) path
  = if bool_decide (tables = []) then None else Some (cpp_output hs tables).
Proof.
  case_bool_decide as Ht.
  - by subst.
  - rewrite generate_cpp_functions_catalog_eq by done. cbn.
    by rewrite lookup_insert_eq.
Qed.

Lemma rendered_ds hs tables path fs :
  rendered (generate_datastructures_catalog hs tables path fs) path
  = if bool_decide (tables = []) then None else Some (ds_output hs tables).
Proof.
  case_bool_decide as Ht.
  - by subst.
  - rewrite generate_datastructures_catalog_eq by done. cbn.
    by rewrite lookup_insert_eq.
Qed.

(** ** What the writer block leaves on a sheet *)

Lemma fill_write_cell w c : fill (write_cell w c) = fill c.
Proof. unfold write_cell. by destruct w.2. Qed.

Lemma write_row_unfilled ws old :
  Forall (λ c, fill c = default_fill) old →
  Forall (λ c, fill c = default_fill) (write_row ws old).
Proof.
  revert old. induction ws as [|w ws IH]; intros old Hold; [done|].
  destruct old as [|c old]; cbn [write_row].
  - constructor; [by rewrite fill_write_cell|by apply IH].
  - apply Forall_cons in Hold as [Hc Hold].
    constructor; [by rewrite fill_write_cell|by apply IH].
Qed.

Lemma write_rows_unfilled wss old :
  Forall (Forall (λ c, fill c = default_fill)) old →
  Forall (Forall (λ c, fill c = default_fill)) (write_rows wss old).
Proof.
  revert old. induction wss as [|ws wss IH]; intros old Hold; [done|].
  destruct old as [|r old]; cbn [write_rows].
  - constructor; [by apply write_row_unfilled|by apply IH].
  - apply Forall_cons in Hold as [Hr Hold].
    constructor; [by apply write_row_unfilled|by apply IH].
Qed.

Lemma write_cells_plain name cells (book : Book) :
  Forall (λ s, plain_sheet s.2) book →
  Forall (λ s, plain_sheet s.2) (write_cells name cells book).
Proof.
  induction 1 as [|[n ws] rest Hws Hrest IH]; cbn [write_cells].
  - constructor; [|done]. repeat split; cbn. by apply write_rows_unfilled.
  - destruct (String.eqb n name).
    + constructor; [|done]. destruct Hws as (?&?&?&?).
      repeat split; cbn; try done. by apply write_rows_unfilled.
    + by constructor.
Qed.

Lemma write_tables_plain hs tables :
  Forall (λ s, plain_sheet s.2) (write_tables hs tables).
Proof.
  unfold write_tables. generalize (Forall_nil_2 (λ s : string * Worksheet, plain_sheet s.2)).
  generalize (@nil (string * Worksheet)). induction tables as [|t tables IH];
    intros book Hbook; [done|].
  cbn [foldl]. apply IH. by apply write_cells_plain.
Qed.

(** ** Cells by coordinate *)

Lemma cell_at_map (f : Cell → Cell) rs i j :
  f blank = blank →
  nth j (nth i (map (map f) rs) []) blank = f (nth j (nth i rs []) blank).
Proof.
  intros Hf. revert i. induction rs as [|r rs IH]; intros i.
  - destruct i, j; cbn; by rewrite Hf.
  - destruct i as [|i]; cbn [map nth]; [|apply IH].
    rewrite <- Hf at 1. apply map_nth.
Qed.

Lemma cell_at_pad n rs i j :
  nth j (nth i (map (pad n) rs) []) blank = nth j (nth i rs []) blank.
Proof.
  revert i. induction rs as [|r rs IH]; intros i.
  - by destruct i, j.
  - destruct i as [|i]; cbn [map nth]; [apply nth_pad|apply IH].
Qed.

Lemma Forall_cell_at (P : Cell → Prop) rs i j :
  P blank → Forall (Forall P) rs → P (nth j (nth i rs []) blank).
Proof.
  intros Hb Hall.
  destruct (nth_in_or_default i rs []) as [Hi| ->]; [|by destruct j].
  apply list_elem_of_In in Hi.
  pose proof (proj1 (Forall_forall _ _) Hall _ Hi) as Hr.
  destruct (nth_in_or_default j (nth i rs []) blank) as [Hj| ->]; [|done].
  apply list_elem_of_In in Hj. by apply (proj1 (Forall_forall _ _) Hr).
Qed.

(** ** C6 *)

Lemma cpp_output_freeze_panes hs tables :
  Forall (λ s, freeze_panes s.2 = Some "B2") (cpp_output hs tables).
Proof.
  unfold cpp_output, stored_book, format_book.
  rewrite !map_map. apply Forall_forall. intros s Hs.
  by apply list_elem_of_In, in_map_iff in Hs as (w & <- & _).
Qed.

Lemma ds_output_plain hs tables :
  Forall (λ s, auto_filter_ref s.2 = None ∧ freeze_panes s.2 = None)
         (ds_output hs tables).
Proof.
  unfold ds_output, stored_book, adjust_book.
  rewrite !map_map. apply Forall_forall. intros s Hs.
  apply list_elem_of_In, in_map_iff in Hs as (w & <- & Hw).
  apply list_elem_of_In in Hw.
  pose proof (proj1 (Forall_forall _ _) (write_tables_plain hs tables) _ Hw)
    as (Ha & Hf & _).
  done.
Qed.

(** C6, as the code has it: every sheet of the file written by the C++
    functions catalog script, which calls [format_worksheet] with its
    default [freeze_panes=True], has its frozen-pane anchor at B2; the
    data-structures catalog script sets no frozen pane on any sheet. *)
Theorem frozen_pane_only_in_formatted_sheets
    (hs : option HeaderStyle) (tables : list Table) (path : string)
    (fs : gmap string Book) (book_cpp book_ds : Book) :
  rendered (generate_cpp_functions_catalog hs tables path fs) path = Some book_cpp →
  rendered (generate_datastructures_catalog hs tables path fs) path = Some book_ds →
  Forall (λ s, freeze_panes s.2 = Some "B2") book_cpp
  ∧ Forall (λ s, freeze_panes s.2 = None) book_ds.
Proof.
  rewrite rendered_cpp, rendered_ds. case_bool_decide; [done|].
  intros [= <-] [= <-]. split; [apply cpp_output_freeze_panes|].
  eapply Forall_impl; [apply ds_output_plain|]. by intros s [_ ?].
Qed.

Lemma frozen_pane_only_in_formatted_sheets_witness :
  Forall (λ s, freeze_panes s.2 = Some "B2")
         (cpp_output (Some pandas_header_style) demo)
  ∧ Forall (λ s, freeze_panes s.2 = None)
           (ds_output (Some pandas_header_style) demo).
Proof.
  apply (frozen_pane_only_in_formatted_sheets (Some pandas_header_style) demo
           "out.xlsx" ∅); vm_compute; reflexivity.
Defined.

(** The data-structures script freezes no pane: on the scenario of the
    specification its sheet has no frozen-pane anchor. *)
Lemma datastructures_sheet_has_no_frozen_pane :
  ∃ ws,
    rendered (generate_datastructures_catalog (Some pandas_header_style) demo "out.xlsx" ∅)
             "out.xlsx" = Some [("Demo", ws)]
    ∧ freeze_panes ws ≠ Some "B2".
Proof. eexists. split; [vm_compute; reflexivity|]. discriminate. Qed.

(** ** Lists *)

Lemma Forall2_map_r_diag {A B} (P : A → B → Prop) (g : A → B) (Q : A → Prop) l :
  Forall Q l → (∀ a, Q a → P a (g a)) → Forall2 P l (map g l).
Proof.
  intros Hl HP. induction Hl as [|a l Ha Hl IH]; cbn; constructor; auto.
Qed.

(** ** C1 *)

Lemma band_rows_fill i rs k row c :
  Forall (Forall (λ c, fill c = default_fill)) rs →
  band_rows i rs !! k = Some row → c ∈ row →
  fill c = if (i + k) mod 2 =? 0 then light_fill else default_fill.
Proof.
  intros Hall. revert i k. induction Hall as [|r rs Hr Hall IH]; intros i k Hk Hc;
    [done|].
  destruct k as [|k].
  - change (Some (map (set_border thin_border)
                      (if i mod 2 =? 0 then map band_cell r else r)) = Some row)
      in Hk.
    rewrite Nat.add_0_r.
    destruct (i mod 2 =? 0); injection Hk as <-;
      apply list_elem_of_In, in_map_iff in Hc as (c1 & <- & Hc1);
      cbn [set_border fill].
    + apply in_map_iff in Hc1 as (c2 & <- & Hc2).
      apply list_elem_of_In in Hc2.
      pose proof (proj1 (Forall_forall _ _) Hr _ Hc2) as Hf.
      unfold band_cell, is_unfilled. by rewrite Hf.
    + apply list_elem_of_In in Hc1. by apply (proj1 (Forall_forall _ _) Hr).
  - change (band_rows (S i) rs !! k = Some row) in Hk.
    replace (i + S k) with (S i + k) by lia. by eapply IH.
Qed.

Lemma pad_unfilled n r :
  Forall (λ c, fill c = default_fill) r →
  Forall (λ c, fill c = default_fill) (pad n r).
Proof.
  intros Hr. unfold pad. apply Forall_app. split; [done|].
  by apply Forall_replicate.
Qed.

Lemma stored_rows_unfilled rs :
  Forall (Forall (λ c, fill c = default_fill)) rs →
  Forall (Forall (λ c, fill c = default_fill)) (map (map stored_cell) rs).
Proof.
  intros Hall. apply Forall_forall. intros r' Hr'.
  apply list_elem_of_In, in_map_iff in Hr' as (r & <- & Hr).
  apply list_elem_of_In in Hr. apply Forall_forall. intros c' Hc'.
  apply list_elem_of_In, in_map_iff in Hc' as (c & <- & Hc).
  apply list_elem_of_In in Hc. change (fill c = default_fill).
  by apply (proj1 (Forall_forall _ _) (proj1 (Forall_forall _ _) Hall _ Hr)).
Qed.

Lemma formatted_rows_data_fill hc rs r row c :
  Forall (Forall (λ c, fill c = default_fill)) rs →
  2 ≤ r → formatted_rows hc rs !! (r - 1) = Some row → c ∈ row →
  fill c = if r mod 2 =? 0 then light_fill else default_fill.
Proof.
  intros Hall Hr Hrow Hc. unfold formatted_rows in Hrow.
  replace (r - 1) with (S (r - 2)) in Hrow by lia.
  change (band_rows 2 (map (pad (max_column rs)) (tl rs)) !! (r - 2) = Some row)
    in Hrow.
  replace r with (2 + (r - 2)) at 1 by lia.
  eapply band_rows_fill; [|exact Hrow|exact Hc].
  apply Forall_forall. intros r' Hr'.
  apply list_elem_of_In, in_map_iff in Hr' as (r0 & <- & Hr0).
  apply pad_unfilled. apply (proj1 (Forall_forall _ _) Hall).
  destruct rs as [|h t]; [done|]. right. by apply list_elem_of_In.
Qed.

Lemma cpp_output_data_fill hs tables name ws r row c :
  (name, ws) ∈ cpp_output hs tables →
  2 ≤ r → rows ws !! (r - 1) = Some row → c ∈ row →
  fill c = if r mod 2 =? 0 then light_fill else default_fill.
Proof.
  unfold cpp_output, stored_book, format_book. rewrite !map_map. cbn [fst snd].
  intros Hin Hr Hrow Hc.
  apply list_elem_of_In, in_map_iff in Hin as ([n w] & [= <- <-] & Hw).
  apply list_elem_of_In in Hw.
  pose proof (proj1 (Forall_forall _ _) (write_tables_plain hs tables) _ Hw)
    as (_ & _ & _ & Hfill).
  cbn [fst snd] in *. unfold stored_sheet at 1 in Hrow. cbn [rows] in Hrow.
  rewrite rows_format_worksheet in Hrow.
  change (map (map stored_cell) ?l) with ((map stored_cell) <$> l) in Hrow at 1.
  rewrite list_lookup_fmap in Hrow.
  destruct (formatted_rows _ _ !! (r - 1)) as [row'|] eqn:Hrow'; [|done].
  cbn in Hrow. injection Hrow as <-.
  apply list_elem_of_In, in_map_iff in Hc as (c' & <- & Hc').
  apply list_elem_of_In in Hc'. cbn [stored_cell set_value fill].
  eapply formatted_rows_data_fill; [|done|exact Hrow'|done].
  cbn [stored_sheet rows]. by apply stored_rows_unfilled.
Qed.

(** C1, as the code has it: in every sheet written by the C++ functions
    catalog script the banding fill is on the data rows of even sheet
    rows (sheet rows 2, 4, ...), that is on the 1st, 3rd, ... data rows
    counting from the first data row, and the other data rows carry no
    fill.  For the workbook with the one table "Demo", fields Name and
    Value, records (a, 1) and (b, 2), the row holding (a, 1) carries the
    banding fill and the row holding (b, 2) does not. *)
Theorem banding_fills_even_sheet_rows
    (hs : option HeaderStyle) (path : string) (fs : gmap string Book) :
  (∀ tables book name ws r row c,
     rendered (generate_cpp_functions_catalog hs tables path fs) path = Some book →
     (name, ws) ∈ book →
     2 ≤ r →
     rows ws !! (r - 1) = Some row →
     c ∈ row →
     fill c = if r mod 2 =? 0 then light_fill else default_fill)
  ∧ (∃ ws,
       rendered (generate_cpp_functions_catalog hs demo path fs) path
       = Some [("Demo", ws)]
       ∧ sheet_values ws = [ [VStr "Name"; VStr "Value"];
                             [VStr "a"; VInt 1];
                             [VStr "b"; VInt 2] ]
       ∧ map (map fill) (tl (rows ws)) = [ [light_fill; light_fill];
                                           [default_fill; default_fill] ]).
Proof.
  split.
  - intros tables book name ws r row c. rewrite rendered_cpp.
    case_bool_decide; [done|]. intros [= <-]. apply cpp_output_data_fill.
  - rewrite rendered_cpp. rewrite bool_decide_false by done.
    destruct hs as [[hf ha hb]|]; eexists; (split; [reflexivity|]);
      split; reflexivity.
Qed.

Lemma banding_fills_even_sheet_rows_witness :
  let c := mkCell (VStr "a") light_fill default_font default_alignment thin_border in
  fill c = if 2 mod 2 =? 0 then light_fill else default_fill.
Proof.
  intros c.
  eapply (proj1 (banding_fills_even_sheet_rows (Some pandas_header_style) "out.xlsx" ∅)
                demo _ "Demo" _ 2 _ c).
  - vm_compute. reflexivity.
  - left.
  - lia.
  - vm_compute. reflexivity.
  - left.
Defined.

(** On the scenario of the specification the banding is the other way
    round from what C1 says: the row holding (a, 1) is filled, the row
    holding (b, 2) is not. *)
Lemma demo_first_data_row_is_banded :
  ∃ ws row_a row_b,
    rendered (generate_cpp_functions_catalog (Some pandas_header_style) demo
                "out.xlsx" ∅) "out.xlsx" = Some [("Demo", ws)]
    ∧ rows ws !! 1 = Some row_a
    ∧ rows ws !! 2 = Some row_b
    ∧ map value_of row_a = [VStr "a"; VInt 1]
    ∧ map value_of row_b = [VStr "b"; VInt 2]
    ∧ Forall (λ c, fill c = light_fill) row_a
    ∧ Forall (λ c, fill c ≠ light_fill) row_b.
Proof.
  eexists _, _, _.
  split; [vm_compute; reflexivity|].
  split; [reflexivity|]. split; [reflexivity|].
  split; [reflexivity|]. split; [reflexivity|].
  split; repeat constructor; discriminate.
Qed.

(** ** Frames built from consistent records *)

Lemma unique_from_fresh (seen l : list string) :
  NoDup (seen ++ l) →
  foldl (λ seen k, if bool_decide (k ∈ seen) then seen else (seen ++ [k])%list)
        seen l = (seen ++ l)%list.
Proof.
  revert seen. induction l as [|k l IH]; intros seen Hnd; cbn [foldl].
  - by rewrite app_nil_r.
  - rewrite bool_decide_false.
    + rewrite IH; rewrite <- app_assoc; done.
    + apply NoDup_app in Hnd as (_ & Hdisj & _). intros Hk.
      apply (Hdisj _ Hk). left.
Qed.

Lemma unique_from_seen (seen l : list string) :
  (∀ k, k ∈ l → k ∈ seen) →
  foldl (λ seen k, if bool_decide (k ∈ seen) then seen else (seen ++ [k])%list)
        seen l = seen.
Proof.
  induction l as [|k l IH]; intros Hl; [done|]. cbn [foldl].
  rewrite bool_decide_true by (apply Hl; left).
  apply IH. intros k' Hk'. apply Hl. by right.
Qed.

Lemma union_keys_consistent (t : Table) :
  consistent_schema t → union_keys (records t) = table_fields t.
Proof.
  intros (Hne & Hnd & _ & Hall). unfold union_keys, unique_in_order, table_fields in *.
  destruct (records t) as [|r rs]; [done|]. cbn [hd map concat] in *.
  rewrite foldl_app. rewrite (unique_from_fresh [] (map fst r)) by done.
  cbn [app]. apply unique_from_seen. intros k Hk.
  apply list_elem_of_In, in_concat in Hk as (l & Hl & Hk).
  apply list_elem_of_In in Hk.
  apply in_map_iff in Hl as (r' & <- & Hr').
  apply list_elem_of_In in Hr'. apply Forall_cons in Hall as [_ Hall].
  by rewrite (proj1 (Forall_forall _ _) Hall _ Hr') in Hk.
Qed.

Lemma record_get_elem (r : record) k v :
  NoDup (map fst r) → (k, v) ∈ r → record_get r k = v.
Proof.
  unfold record_get. induction r as [|[k0 v0] r IH]; intros Hnd Hin;
    [by apply elem_of_nil in Hin|].
  cbn [map fst] in Hnd. apply NoDup_cons in Hnd as [Hk0 Hnd].
  cbn [List.find fst]. destruct (String.eqb_spec k0 k) as [->|Hne].
  - apply elem_of_cons in Hin as [[= ->]|Hin]; [done|].
    exfalso. apply Hk0. apply list_elem_of_In, in_map_iff. exists (k, v).
    split; [done|]. by apply list_elem_of_In.
  - apply elem_of_cons in Hin as [[= ? ?]|Hin]; [congruence|]. by apply IH.
Qed.

Lemma record_get_own_keys (r : record) :
  NoDup (map fst r) → map (record_get r) (map fst r) = map snd r.
Proof.
  intros Hnd. rewrite map_map. apply map_ext_in. intros [k v] Hin.
  apply record_get_elem; [done|]. by apply list_elem_of_In.
Qed.

Lemma length_df_values rs : length (df_values (pd_DataFrame rs)) = length rs.
Proof. apply length_map. Qed.

Lemma df_values_rect rs :
  Forall (λ row, length row = length (union_keys rs)) (df_values (pd_DataFrame rs)).
Proof.
  apply Forall_forall. intros row Hrow.
  apply list_elem_of_In, in_map_iff in Hrow as (r & <- & _). apply length_map.
Qed.

(** ** Sheets written from consistent tables *)

Lemma write_row_new ws : write_row ws [] = map (λ w, write_cell w blank) ws.
Proof. induction ws as [|w ws IH]; [done|]. cbn. by rewrite IH. Qed.

Lemma write_rows_new wss : write_rows wss [] = map (λ ws, write_row ws []) wss.
Proof. induction wss as [|ws wss IH]; [done|]. cbn. by rewrite IH. Qed.

Lemma value_of_write_cell w c : value_of (write_cell w c) = w.1.
Proof. unfold write_cell. by destruct w.2. Qed.

Lemma values_write_row_new ws : map value_of (write_row ws []) = map fst ws.
Proof.
  rewrite write_row_new, map_map. apply map_ext. intros w.
  apply value_of_write_cell.
Qed.

Lemma table_sheet_values_any hs t :
  union_keys (records t) ≠ [] →
  sheet_values (table_sheet hs t).2 = written_values t.
Proof.
  intros Hne. unfold table_sheet, sheet_values, excel_cells, written_values.
  cbn [snd rows]. set (df := pd_DataFrame (records t)).
  assert (df_columns df = union_keys (records t)) as Hcols by done.
  destruct (df_columns df) as [|f fs] eqn:Hf; [congruence|].
  rewrite write_rows_new. cbn [map]. rewrite values_write_row_new. f_equal.
  - cbn. f_equal. rewrite map_map. by apply map_ext.
  - rewrite !map_map. apply map_ext. intros r.
    rewrite values_write_row_new, !map_map. by apply map_ext.
Qed.

Lemma consistent_schema_keys t :
  consistent_schema t → union_keys (records t) ≠ [].
Proof. intros Hc. rewrite union_keys_consistent by done. by destruct Hc. Qed.

Lemma table_sheet_values hs t :
  consistent_schema t →
  sheet_values (table_sheet hs t).2 = written_values t.
Proof. intros Hc. by apply table_sheet_values_any, consistent_schema_keys. Qed.

Lemma sheet_values_rect n ws :
  Forall (λ r, length r = n) (sheet_values ws)
  ↔ Forall (λ r, length r = n) (rows ws).
Proof.
  unfold sheet_values. rewrite !Forall_forall. split.
  - intros H r Hr. rewrite <- (length_map value_of). apply H.
    apply list_elem_of_In, in_map_iff. exists r. split; [done|].
    by apply list_elem_of_In.
  - intros H r' Hr'. apply list_elem_of_In, in_map_iff in Hr' as (r & <- & Hr).
    rewrite length_map. apply H. by apply list_elem_of_In.
Qed.

Lemma table_sheet_shaped_any hs t :
  union_keys (records t) ≠ [] →
  table_shaped (length (union_keys (records t))) (table_sheet hs t).2.
Proof.
  intros Hne. pose proof (table_sheet_values_any hs t Hne) as Hv. repeat split.
  - destruct (union_keys (records t)); [done|cbn; lia].
  - intros Hrows. unfold sheet_values in Hv. by rewrite Hrows in Hv.
  - apply sheet_values_rect. rewrite Hv. unfold written_values.
    constructor; [apply length_map|].
    apply Forall_forall. intros r' Hr'.
    apply list_elem_of_In, in_map_iff in Hr' as (row & <- & Hrow).
    apply list_elem_of_In in Hrow. rewrite length_map.
    by apply (proj1 (Forall_forall _ _) (df_values_rect (records t))).
Qed.

Lemma table_sheet_shaped hs t :
  consistent_schema t →
  table_shaped (length (table_fields t)) (table_sheet hs t).2.
Proof.
  intros Hc. rewrite <- (union_keys_consistent t Hc).
  by apply table_sheet_shaped_any, consistent_schema_keys.
Qed.

Lemma write_cells_fresh name cells (book : Book) :
  name ∉ book.*1 →
  write_cells name cells book
  = (book ++ [(name, mkWorksheet (write_rows cells []) None None ∅)])%list.
Proof.
  induction book as [|[n ws] rest IH]; intros Hfresh; [done|].
  cbn [write_cells]. destruct (String.eqb_spec n name) as [->|Hne].
  - exfalso. apply Hfresh. left.
  - cbn. rewrite IH; [done|]. intros Hin. apply Hfresh. by right.
Qed.

Lemma write_tables_from_fresh hs tables (book : Book) :
  NoDup (book.*1 ++ map sheet_name tables) →
  foldl (λ book t, to_excel hs (pd_DataFrame (records t)) (sheet_name t) book)
        book tables
  = (book ++ map (table_sheet hs) tables)%list.
Proof.
  revert book. induction tables as [|t tables IH]; intros book Hnd.
  - cbn. by rewrite app_nil_r.
  - cbn [foldl map]. unfold to_excel at 2. rewrite write_cells_fresh.
    + rewrite IH.
      * by rewrite <- app_assoc.
      * rewrite fmap_app. cbn. by rewrite <- app_assoc.
    + apply NoDup_app in Hnd as (_ & Hdisj & _). intros Hin.
      apply (Hdisj _ Hin). left.
Qed.

Lemma write_tables_NoDup hs tables :
  NoDup (map sheet_name tables) →
  write_tables hs tables = map (table_sheet hs) tables.
Proof. intros Hnd. by apply (write_tables_from_fresh hs tables []). Qed.

(** ** Cell values through saving and formatting *)

Lemma stored_value_idem v : stored_value (stored_value v) = stored_value v.
Proof. by destruct v as [|[|a s]|z|z]. Qed.

Lemma stored_value_na_rep v : stored_value (na_rep v) = stored_value v.
Proof. by destruct v as [|[|a s]|z|z]. Qed.

Lemma stored_value_field c : c ≠ "" → stored_value (VStr c) = VStr c.
Proof. by destruct c. Qed.

Lemma sheet_values_stored ws :
  sheet_values (stored_sheet ws) = map (map stored_value) (sheet_values ws).
Proof.
  unfold sheet_values, stored_sheet. cbn [rows]. rewrite !map_map.
  apply map_ext. intros r. rewrite !map_map. by apply map_ext.
Qed.

Lemma stored_sheet_shaped n ws :
  table_shaped n ws → table_shaped n (stored_sheet ws).
Proof.
  intros (Hn & Hne & Hall). repeat split; [done| |].
  - cbn. by destruct (rows ws).
  - cbn [stored_sheet rows]. apply Forall_forall. intros r' Hr'.
    apply list_elem_of_In, in_map_iff in Hr' as (r & <- & Hr).
    apply list_elem_of_In in Hr. rewrite length_map.
    by apply (proj1 (Forall_forall _ _) Hall).
Qed.

Lemma values_band_rows i rs :
  map (map value_of) (band_rows i rs) = map (map value_of) rs.
Proof.
  revert i. induction rs as [|r rs IH]; intros i; [done|].
  cbn [band_rows map]. rewrite IH. f_equal.
  destruct (i mod 2 =? 0); rewrite !map_map; apply map_ext; intros c; cbn;
    [apply value_of_band_cell|done].
Qed.

Lemma sheet_values_format_worksheet n ws hc fp :
  table_shaped n ws →
  sheet_values (format_worksheet ws hc fp) = sheet_values ws.
Proof.
  intros (Hn & Hne & Hall). unfold sheet_values.
  rewrite rows_format_worksheet. unfold formatted_rows.
  rewrite (max_column_rect n) by done.
  destruct (rows ws) as [|h t]; [done|]. cbn [hd tl].
  apply Forall_cons in Hall as [Hh Ht].
  rewrite pad_id by lia. rewrite (map_pad_rect _ _ Ht).
  cbn [map]. rewrite values_band_rows. f_equal.
  rewrite map_map. by apply map_ext.
Qed.

Lemma sheet_values_auto_adjust_widths n ws :
  table_shaped n ws →
  sheet_values (auto_adjust_widths ws) = sheet_values ws.
Proof.
  intros (Hn & Hne & Hall). unfold sheet_values, auto_adjust_widths.
  cbn [rows]. by rewrite (materialize_rect n).
Qed.

Lemma stored_frame_entry rs r k :
  stored_value (na_rep (frame_entry rs r k)) = stored_value (record_get r k).
Proof.
  unfold frame_entry. destruct (float_column _); [|apply stored_value_na_rep].
  by destruct (record_get r k) as [|[|a s]|z|z].
Qed.

Lemma stored_written_values (t : Table) :
  map (map stored_value) (written_values t)
  = map (map stored_value) (frame_values (records t)).
Proof.
  unfold written_values, frame_values, pd_DataFrame. cbn [df_columns df_values map].
  f_equal. rewrite !map_map. apply map_ext. intros r. rewrite !map_map.
  apply map_ext. intros k. apply stored_frame_entry.
Qed.

Lemma stored_table_values (t : Table) :
  consistent_schema t →
  map (map stored_value) (written_values t) = table_values t.
Proof.
  intros Hc. rewrite stored_written_values. unfold frame_values, table_values.
  rewrite union_keys_consistent by done.
  destruct Hc as (_ & Hnd & Hempty & Hall). cbn [map]. f_equal.
  - rewrite map_map. apply map_ext_in. intros c Hc.
    apply stored_value_field. intros ->. apply Hempty. by apply list_elem_of_In.
  - rewrite map_map. apply map_ext_in. intros r Hr. apply list_elem_of_In in Hr.
    pose proof (proj1 (Forall_forall _ _) Hall _ Hr) as Hkeys. cbn in Hkeys.
    rewrite <- Hkeys, record_get_own_keys, map_map by (by rewrite Hkeys).
    done.
Qed.

Lemma table_values_stored (t : Table) :
  consistent_schema t →
  map (map stored_value) (table_values t) = table_values t.
Proof.
  intros (_ & _ & Hempty & _). unfold table_values. cbn [map]. f_equal.
  - rewrite map_map. apply map_ext_in. intros c Hc.
    apply stored_value_field. intros ->. apply Hempty. by apply list_elem_of_In.
  - rewrite map_map. apply map_ext. intros r. rewrite map_map.
    apply map_ext. intros kv. apply stored_value_idem.
Qed.

Lemma cpp_output_values hs tables :
  valid_workbook tables →
  Forall2 (λ t s, s.1 = sheet_name t ∧ sheet_values s.2 = table_values t)
          tables (cpp_output hs tables).
Proof.
  intros (_ & Hnd & Hall). unfold cpp_output.
  rewrite write_tables_NoDup by done.
  unfold stored_book, format_book. rewrite !map_map.
  eapply Forall2_map_r_diag; [exact Hall|]. intros t Hc. cbn [fst snd].
  split; [done|].
  pose proof (table_sheet_shaped hs t Hc) as Hshape.
  rewrite sheet_values_stored.
  rewrite (sheet_values_format_worksheet _ _ _ _ (stored_sheet_shaped _ _ Hshape)).
  rewrite sheet_values_stored, table_sheet_values, stored_table_values by done.
  by apply table_values_stored.
Qed.

Lemma ds_output_values hs tables :
  valid_workbook tables →
  Forall2 (λ t s, s.1 = sheet_name t ∧ sheet_values s.2 = table_values t)
          tables (ds_output hs tables).
Proof.
  intros (_ & Hnd & Hall). unfold ds_output.
  rewrite write_tables_NoDup by done.
  unfold stored_book, adjust_book. rewrite !map_map.
  eapply Forall2_map_r_diag; [exact Hall|]. intros t Hc. cbn [fst snd].
  split; [done|].
  pose proof (table_sheet_shaped hs t Hc) as Hshape.
  rewrite sheet_values_stored.
  rewrite (sheet_values_auto_adjust_widths _ _ Hshape).
  by rewrite table_sheet_values, stored_table_values.
Qed.

(** ** C2 *)


(** Validity of a concrete workbook is decided by evaluation. *)
Ltac solve_consistent_schema :=
  split; [done|]; split; [compute_done|]; split; [compute_done|];
  repeat constructor.

Ltac solve_valid_workbook :=
  split; [done|]; split; [compute_done|];
  repeat (constructor; [solve_consistent_schema|]); constructor.

Lemma demo_valid : valid_workbook demo.
Proof. solve_valid_workbook. Qed.


(** ** C3 *)

(** C3, as the code has it: for every table of a valid workbook the sheet
    holds exactly one data row per record, in the order of the records,
    and the cell in column i of a record's row holds the value of the
    record's i-th field, where an empty string, like an absent value, is
    stored as an empty cell and read back as absent; rows and columns are
    not reordered.  This holds of the files of both scripts. *)
Theorem data_rows_follow_the_records
    (hs : option HeaderStyle) (tables : list Table) (path : string)
    (fs : gmap string Book) (book_cpp book_ds : Book) :
  valid_workbook tables →
  rendered (generate_cpp_functions_catalog hs tables path fs) path = Some book_cpp →
  rendered (generate_datastructures_catalog hs tables path fs) path = Some book_ds →
  Forall2 (λ t s,
             length (tl (rows s.2)) = length (records t)
             ∧ tl (sheet_values s.2)
               = map (λ r : record, map (λ kv, stored_value kv.2) r) (records t))
          tables book_cpp
  ∧ Forall2 (λ t s,
               length (tl (rows s.2)) = length (records t)
               ∧ tl (sheet_values s.2)
                 = map (λ r : record, map (λ kv, stored_value kv.2) r) (records t))
            tables book_ds.
Proof.
  intros Hvalid. rewrite rendered_cpp, rendered_ds.
  case_bool_decide; [done|]. intros [= <-] [= <-].
  assert (∀ (t : Table) (s : string * Worksheet),
            s.1 = sheet_name t ∧ sheet_values s.2 = table_values t →
            length (tl (rows s.2)) = length (records t)
            ∧ tl (sheet_values s.2)
              = map (λ r : record, map (λ kv, stored_value kv.2) r) (records t))
    as Himpl.
  { intros t s [_ Hv]. rewrite Hv. split; [|done].
    apply (f_equal (λ l, length (tl l))) in Hv. unfold sheet_values in Hv.
    cbn in Hv. rewrite length_map in Hv. rewrite <- Hv.
    destruct (rows s.2); [done|]. cbn. by rewrite length_map. }
  split.
  - eapply Forall2_impl; [by apply cpp_output_values|exact Himpl].
  - eapply Forall2_impl; [by apply ds_output_values|exact Himpl].
Qed.

Lemma data_rows_follow_the_records_witness :
  Forall2 (λ t s,
             length (tl (rows s.2)) = length (records t)
             ∧ tl (sheet_values s.2)
               = map (λ r : record, map (λ kv, stored_value kv.2) r) (records t))
          demo (cpp_output (Some pandas_header_style) demo)
  ∧ Forall2 (λ t s,
               length (tl (rows s.2)) = length (records t)
               ∧ tl (sheet_values s.2)
                 = map (λ r : record, map (λ kv, stored_value kv.2) r) (records t))
            demo (ds_output (Some pandas_header_style) demo).
Proof.
  apply (data_rows_follow_the_records (Some pandas_header_style) demo "out.xlsx" ∅).
  - exact demo_valid.
  - vm_compute. reflexivity.
  - vm_compute. reflexivity.
Defined.

(** A field whose value is the empty string does not come out as
    written: the stored cell is empty and reads back as [None]. *)
Lemma empty_string_is_read_back_as_absent :
  let tables := [ mkTable "T" [ [("Note", VStr "")] ] ] in
  valid_workbook tables
  ∧ ∃ ws,
      rendered (generate_cpp_functions_catalog (Some pandas_header_style) tables
                  "out.xlsx" ∅) "out.xlsx" = Some [("T", ws)]
      ∧ sheet_values ws = [ [VStr "Note"]; [VNone] ]
      ∧ value_of (cell_at ws 1 0) ≠ VStr "".
Proof.
  split; [solve_valid_workbook|].
  eexists. split; [vm_compute; reflexivity|]. split; [reflexivity|]. discriminate.
Qed.

(** ** C4 *)

Lemma unique_from_spec (seen l : list string) :
  NoDup seen →
  let u := foldl (λ seen k, if bool_decide (k ∈ seen) then seen
                            else (seen ++ [k])%list) seen l in
  NoDup u ∧ ∀ k, k ∈ u ↔ k ∈ seen ∨ k ∈ l.
Proof.
  revert seen. induction l as [|x l IH]; intros seen Hnd; cbn [foldl].
  - split; [done|]. intros k. split; [by left|]. by intros [?|?%elem_of_nil].
  - case_bool_decide as Hx.
    + destruct (IH seen Hnd) as [Hu Hk]. split; [done|]. intros k.
      rewrite Hk, elem_of_cons. split; [tauto|]. intros [?|[->|?]]; auto.
    + destruct (IH (seen ++ [x])%list) as [Hu Hk].
      { apply NoDup_app. split; [done|]. split; [|apply NoDup_singleton].
        by intros k Hk ->%list_elem_of_singleton. }
      split; [done|]. intros k.
      rewrite Hk, elem_of_app, list_elem_of_singleton, elem_of_cons. tauto.
Qed.

Lemma unique_in_order_spec (l : list string) :
  NoDup (unique_in_order l) ∧ ∀ k, k ∈ unique_in_order l ↔ k ∈ l.
Proof.
  destruct (unique_from_spec [] l (NoDup_nil_2)) as [Hu Hk]. split; [done|].
  intros k. unfold unique_in_order. rewrite Hk. split; [|by right].
  by intros [?%elem_of_nil|?].
Qed.

Lemma unique_in_order_shorter (l : list string) :
  ¬ NoDup l → length (unique_in_order l) < length l.
Proof.
  intros Hdup. destruct (unique_in_order_spec l) as [Hu Hk].
  assert (unique_in_order l ⊆+ l) as Hsub.
  { apply NoDup_submseteq; [done|]. intros k. by rewrite Hk. }
  destruct (Nat.lt_ge_cases (length (unique_in_order l)) (length l)) as [|Hge];
    [done|].
  exfalso. apply Hdup.
  by rewrite <- (submseteq_length_Permutation _ _ Hsub Hge).
Qed.

Lemma cpp_output_names hs tables :
  (cpp_output hs tables).*1 = unique_in_order (map sheet_name tables).
Proof.
  rewrite <- (write_tables_names hs). unfold cpp_output, stored_book, format_book.
  generalize (write_tables hs tables). intros book.
  induction book as [|s book IH]; [done|]. cbn. by rewrite <- IH.
Qed.

(** C4, as the code has it: a workbook in which two tables share a
    sheet name is not rejected.  The script has no schema check and no
    [SchemaError]; it runs to completion and writes the file, in which
    the tables that share a name are written onto one sheet, so that the
    file has one sheet per distinct name and fewer sheets than tables. *)
Theorem shared_sheet_name_is_not_rejected
    (hs : option HeaderStyle) (tables : list Table) (path : string)
    (fs : gmap string Book) :
  ¬ NoDup (map sheet_name tables) →
  ∃ fs' book,
    generate_cpp_functions_catalog hs tables path fs = inr fs'
    ∧ fs' !! path = Some book
    ∧ NoDup book.*1
    ∧ (∀ name, name ∈ book.*1 ↔ name ∈ map sheet_name tables)
    ∧ length book < length tables.
Proof.
  intros Hdup.
  assert (tables ≠ []) as Hne.
  { intros ->. apply Hdup. constructor. }
  eexists _, (cpp_output hs tables).
  split; [by apply generate_cpp_functions_catalog_eq|].
  split; [by rewrite lookup_insert_eq|].
  rewrite cpp_output_names.
  destruct (unique_in_order_spec (map sheet_name tables)) as [Hu Hk].
  split; [done|]. split; [done|].
  rewrite <- (length_fmap fst (cpp_output hs tables)), cpp_output_names.
  rewrite <- (length_map sheet_name tables).
  by apply unique_in_order_shorter.
Qed.

(** The workbook of the failing scenario: two tables named "A". *)
Lemma shared_sheet_name_is_not_rejected_witness :
  let tables := [ mkTable "A" [ [("x", VInt 1)] ];
                  mkTable "A" [ [("y", VInt 2)] ] ] in
  ∃ fs' book,
    generate_cpp_functions_catalog (Some pandas_header_style) tables "out.xlsx" ∅
    = inr fs'
    ∧ fs' !! "out.xlsx" = Some book
    ∧ NoDup book.*1
    ∧ (∀ name, name ∈ book.*1 ↔ name ∈ map sheet_name tables)
    ∧ length book < length tables.
Proof.
  intros tables.
  apply (shared_sheet_name_is_not_rejected (Some pandas_header_style) tables
           "out.xlsx" ∅).
  vm_compute. intros H. inversion H as [|? ? Hin _]. apply Hin. left.
Defined.

(** Two tables that share a sheet name: the run succeeds and creates the
    file, with the one sheet "A" holding the cells of the second table. *)
Lemma shared_sheet_name_renders :
  let tables := [ mkTable "A" [ [("x", VInt 1)] ];
                  mkTable "A" [ [("y", VInt 2)] ] ] in
  ¬ NoDup (map sheet_name tables)
  ∧ ∃ fs' ws,
      generate_cpp_functions_catalog (Some pandas_header_style) tables "out.xlsx" ∅
      = inr fs'
      ∧ fs' !! "out.xlsx" = Some [("A", ws)]
      ∧ sheet_values ws = [ [VStr "y"]; [VInt 2] ]
      ∧ (∅ : gmap string Book) !! "out.xlsx" = None.
Proof.
  split.
  - cbn. intros H. inversion H as [|? ? Hin _]. apply Hin. left.
  - eexists _, _. split; [vm_compute; reflexivity|].
    split; [vm_compute; reflexivity|]. split; reflexivity.
Qed.

(** * Further properties of [format_worksheet] *)

(** ** Cells of a formatted sheet, by coordinate *)

Lemma nth_map_blank (f : Cell → Cell) l j :
  nth j (map f l) blank = if j <? length l then f (nth j l blank) else blank.
Proof.
  revert j. induction l as [|c l IH]; intros [|j]; try done.
  cbn [map nth length]. by rewrite IH.
Qed.

Lemma nth_nil_blank j : nth j (@nil Cell) blank = blank.
Proof. by destruct j. Qed.

Lemma value_of_band_rows_cell i rs k j :
  value_of (nth j (nth k (band_rows i rs) []) blank)
  = value_of (nth j (nth k rs []) blank).
Proof.
  revert i k. induction rs as [|r rs IH]; intros i k; [done|].
  destruct k as [|k]; cbn [band_rows nth]; [|apply IH].
  destruct (i mod 2 =? 0); rewrite !value_of_nth_map;
    auto using value_of_band_cell.
Qed.

Lemma cell_at_formatted_head hc rs j :
  nth j (nth 0 (formatted_rows hc rs) []) blank
  = if j <? max_column rs
    then style_header_cell hc (nth j (nth 0 rs []) blank)
    else blank.
Proof.
  unfold formatted_rows. cbn [nth]. rewrite nth_map_blank, length_pad, nth_pad.
  assert (length (hd [] rs) ≤ max_column rs) as Hle.
  { destruct rs as [|h t]; cbn [hd length]; [lia|]. rewrite max_column_cons. lia. }
  replace (Nat.max (max_column rs) (length (hd [] rs))) with (max_column rs) by lia.
  by destruct rs.
Qed.

Lemma cell_at_formatted_tail hc rs k j :
  nth j (nth (S k) (formatted_rows hc rs) []) blank
  = nth j (nth k (band_rows 2 (map (pad (max_column rs)) (tl rs))) []) blank.
Proof. done. Qed.

Lemma nth_tl {A} (l : list (list A)) k : nth k (tl l) [] = nth (S k) l [].
Proof. destruct l; [by destruct k|done]. Qed.

(** X1: formatting changes no cell value, at any coordinate, and keeps
    the extent of the sheet. *)
Theorem format_worksheet_keeps_values
    (ws : Worksheet) (hc : string) (fp : bool) (i j : nat) :
  value_of (cell_at (format_worksheet ws hc fp) i j) = value_of (cell_at ws i j)
  ∧ max_column (rows (format_worksheet ws hc fp)) = max_column (rows ws)
  ∧ max_row (rows (format_worksheet ws hc fp)) = max_row (rows ws).
Proof.
  unfold cell_at. rewrite rows_format_worksheet. split; [|split].
  - destruct i as [|k].
    + rewrite cell_at_formatted_head.
      destruct (Nat.ltb_spec j (max_column (rows ws))) as [Hj|Hj]; [done|].
      rewrite nth_overflow; [done|].
      destruct (rows ws) as [|h t]; cbn [nth length]; [lia|].
      rewrite max_column_cons in Hj. lia.
    + rewrite cell_at_formatted_tail, value_of_band_rows_cell, cell_at_pad.
      by rewrite nth_tl.
  - apply max_column_formatted_rows.
  - unfold max_row at 1. rewrite length_formatted_rows. unfold max_row. lia.
Qed.

(** X2: after formatting, row 1 has a cell for every column of the
    sheet (at least one), and each of them carries the header fill of
    the given colour, the bold white header font, the centred wrapping
    alignment and the thin border. *)
Theorem format_worksheet_styles_header_row
    (ws : Worksheet) (hc : string) (fp : bool) :
  length (hd [] (rows (format_worksheet ws hc fp))) = max_column (rows ws)
  ∧ 1 ≤ max_column (rows ws)
  ∧ Forall (λ c, fill c = header_fill hc
                 ∧ font c = header_font
                 ∧ alignment c = header_alignment
                 ∧ border c = thin_border)
           (hd [] (rows (format_worksheet ws hc fp))).
Proof.
  rewrite rows_format_worksheet.
  pose proof (formatted_rows_rect hc (rows ws)) as Hrect.
  unfold formatted_rows in *. cbn [hd].
  apply Forall_cons in Hrect as [Hh _].
  split; [done|]. split; [apply max_column_ge1|].
  apply Forall_forall. intros c Hc.
  by apply list_elem_of_In, in_map_iff in Hc as (c0 & <- & _).
Qed.

Lemma band_rows_bordered i rs :
  Forall (Forall (λ c, border c = thin_border)) (band_rows i rs).
Proof.
  revert i. induction rs as [|r rs IH]; intros i; cbn [band_rows];
    constructor; [|apply IH].
  apply Forall_forall. intros c Hc.
  by apply list_elem_of_In, in_map_iff in Hc as (c0 & <- & _).
Qed.

(** X3: after formatting every cell of the sheet, in the header row and
    in the data rows alike, has the thin black border. *)
Theorem format_worksheet_borders_every_cell
    (ws : Worksheet) (hc : string) (fp : bool) :
  Forall (Forall (λ c, border c = thin_border)) (rows (format_worksheet ws hc fp)).
Proof.
  rewrite rows_format_worksheet. unfold formatted_rows. constructor.
  - apply Forall_forall. intros c Hc.
    by apply list_elem_of_In, in_map_iff in Hc as (c0 & <- & _).
  - apply band_rows_bordered.
Qed.

Lemma fill_band_rows_kept i rs k j :
  ((i + k) mod 2 =? 0) && is_unfilled (nth j (nth k rs []) blank) = false →
  fill (nth j (nth k (band_rows i rs) []) blank)
  = fill (nth j (nth k rs []) blank).
Proof.
  revert i k. induction rs as [|r rs IH]; intros i k Hkeep.
  - by destruct k, j.
  - destruct k as [|k]; cbn [band_rows nth] in *.
    + rewrite Nat.add_0_r in Hkeep. rewrite nth_map_blank.
      destruct (i mod 2 =? 0).
      * rewrite length_map, nth_map_blank.
        destruct (j <? length r) eqn:Hj.
        -- cbn [set_border fill]. unfold band_cell.
           cbn in Hkeep. by rewrite Hkeep.
        -- apply Nat.ltb_ge in Hj. by rewrite nth_overflow.
      * destruct (j <? length r) eqn:Hj; [done|].
        apply Nat.ltb_ge in Hj. by rewrite nth_overflow.
    + apply IH. by replace (S i + k) with (i + S k) by lia.
Qed.

(** X4: banding never replaces a fill.  Below the header row, a cell
    that already carries a fill keeps it, and so does every cell of an
    odd sheet row (3, 5, ...), filled or not. *)
Theorem format_worksheet_keeps_existing_fills
    (ws : Worksheet) (hc : string) (fp : bool) (r j : nat) :
  2 ≤ r →
  is_unfilled (cell_at ws (r - 1) j) = false ∨ r mod 2 ≠ 0 →
  fill (cell_at (format_worksheet ws hc fp) (r - 1) j) = fill (cell_at ws (r - 1) j).
Proof.
  intros Hr Hkeep. unfold cell_at in *. rewrite rows_format_worksheet.
  replace (r - 1) with (S (r - 2)) in * by lia.
  rewrite cell_at_formatted_tail.
  rewrite <- (nth_tl (rows ws)) in *.
  rewrite <- (cell_at_pad (max_column (rows ws)) (tl (rows ws))) in *.
  apply fill_band_rows_kept.
  replace (2 + (r - 2)) with r by lia.
  destruct Hkeep as [->|Hodd]; [apply andb_false_r|].
  by destruct (Nat.eqb_spec (r mod 2) 0).
Qed.

Lemma format_worksheet_keeps_existing_fills_witness :
  let yellow := mkPatternFill (Some "solid") (RGB "00FFFF00") (RGB "00FFFF00") in
  let ws := mkWorksheet [ [set_value (VStr "h") blank];
                          [set_fill yellow (set_value (VStr "x") blank)] ]
                        None None ∅ in
  fill (cell_at (format_worksheet ws "4472C4" true) (2 - 1) 0)
  = fill (cell_at ws (2 - 1) 0).
Proof.
  intros yellow ws.
  apply (format_worksheet_keeps_existing_fills ws "4472C4" true 2 0).
  - lia.
  - left. reflexivity.
Defined.

(** ** The auto-filter range *)

Lemma dimensions_header_styled hc rs :
  dimensions (header_styled hc rs) = dimensions (formatted_rows hc rs).
Proof.
  unfold dimensions. unfold max_row at 1 2.
  by rewrite max_column_formatted_rows, max_column_header_styled,
    length_formatted_rows, length_header_styled.
Qed.

(** X5: the auto-filter range set by [format_worksheet] is the range of
    the formatted sheet itself, from A1 to its last column and last
    row, also where formatting had to create cells. *)
Theorem auto_filter_spans_formatted_sheet
    (ws : Worksheet) (hc : string) (fp : bool) :
  auto_filter_ref (format_worksheet ws hc fp)
  = Some ("A1:"
          +:+ get_column_letter (max_column (rows (format_worksheet ws hc fp)))
          +:+ pretty (max_row (rows (format_worksheet ws hc fp)))).
Proof.
  rewrite rows_format_worksheet, format_worksheet_eq. cbn [auto_filter_ref].
  by rewrite dimensions_header_styled.
Qed.

(** ** Widths of other columns *)

Lemma last_assigned_missing (l : list (string * nat)) k :
  k ∉ l.*1 → last_assigned k l = None.
Proof.
  induction l as [|[k' v'] l IH]; intros Hk; [done|].
  cbn in *. rewrite IH by (intros ?; apply Hk; by right).
  rewrite bool_decide_false; [done|]. intros ->. apply Hk. left.
Qed.

Lemma width_entries_missing margin cap rs k :
  (∀ j, j < max_column rs → k ≠ get_column_letter (S j)) →
  last_assigned k (width_entries margin cap rs) = None.
Proof.
  intros Hk. apply last_assigned_missing. intros Hin.
  destruct rs as [|r rs]; [by apply elem_of_nil in Hin|].
  rewrite width_entries_keys in Hin by done.
  apply list_elem_of_In, in_map_iff in Hin as (j & Hj & Hin).
  apply in_seq in Hin. apply (Hk j); [lia|done].
Qed.

(** X6: the width loops assign a width to the columns of the sheet and
    to no other: the entry of every other column letter is left as it
    was, by [format_worksheet] and by the loop of the data-structures
    script. *)
Theorem widths_of_other_columns_untouched
    (ws : Worksheet) (hc : string) (fp : bool) (k : string) :
  (∀ j, j < max_column (rows ws) → k ≠ get_column_letter (S j)) →
  column_dimensions (format_worksheet ws hc fp) !! k = column_dimensions ws !! k
  ∧ column_dimensions (auto_adjust_widths ws) !! k = column_dimensions ws !! k.
Proof.
  intros Hk. split.
  - rewrite format_worksheet_eq. cbn [column_dimensions].
    rewrite assign_all_lookup, width_entries_missing; [done|].
    by rewrite max_column_header_styled.
  - unfold auto_adjust_widths. cbn [column_dimensions].
    by rewrite adjust_column_widths_entries, assign_all_lookup,
      width_entries_missing.
Qed.

Lemma widths_of_other_columns_untouched_witness :
  let ws := mkWorksheet [ [set_value (VStr "h") blank] ] None None {[ "C" := 12 ]} in
  column_dimensions (format_worksheet ws "4472C4" true) !! "C"
  = column_dimensions ws !! "C"
  ∧ column_dimensions (auto_adjust_widths ws) !! "C" = column_dimensions ws !! "C".
Proof.
  intros ws.
  apply (widths_of_other_columns_untouched ws "4472C4" true "C").
  intros j Hj. replace j with 0 by (vm_compute in Hj; lia). discriminate.
Defined.

(** ** Formatting a formatted sheet again *)

Lemma formatted_rows_again hc1 hc2 rs :
  formatted_rows hc2 (formatted_rows hc1 rs) = formatted_rows hc2 rs.
Proof.
  pose proof (formatted_rows_rect hc1 rs) as Hrect.
  unfold formatted_rows at 1. rewrite max_column_formatted_rows.
  unfold formatted_rows in *. cbn [hd tl].
  apply Forall_cons in Hrect as [Hh Ht].
  rewrite pad_id by lia. rewrite (map_pad_rect _ _ Ht).
  rewrite band_rows_idem. f_equal.
  rewrite map_map. by apply map_ext.
Qed.

Lemma header_styled_again hc1 hc2 rs :
  header_styled hc2 (formatted_rows hc1 rs) = formatted_rows hc2 rs.
Proof.
  pose proof (formatted_rows_rect hc1 rs) as Hrect.
  unfold header_styled, row1. rewrite max_column_formatted_rows.
  unfold formatted_rows in *. cbn [hd tl].
  apply Forall_cons in Hrect as [Hh Ht].
  rewrite pad_id by lia. f_equal.
  rewrite map_map. by apply map_ext.
Qed.

Lemma width_entries_any_colour margin cap hc1 hc2 rs :
  width_entries margin cap (header_styled hc1 rs)
  = width_entries margin cap (header_styled hc2 rs).
Proof.
  unfold width_entries, ws_columns. rewrite !max_column_header_styled.
  unfold header_styled at 1 3.
  rewrite !map_map. apply map_ext. intros j. cbn [fst snd]. f_equal.
  rewrite !column_max_length_spec. do 2 f_equal. apply max_text_length_values.
  unfold header_styled, column_of. cbn [map]. f_equal.
  by rewrite !value_of_nth_map.
Qed.

(** X7: formatting a formatted sheet again, with whatever header colour,
    gives what one formatting with the last colour gives: the header
    takes the last colour, banding, borders, widths and auto-filter stay,
    and the pane is frozen if either call asked for it (a call with
    [freeze_panes=False] does not unfreeze). *)
Theorem format_worksheet_again
    (ws : Worksheet) (hc1 hc2 : string) (fp1 fp2 : bool) :
  format_worksheet (format_worksheet ws hc1 fp1) hc2 fp2
  = format_worksheet ws hc2 (fp1 || fp2).
Proof.
  rewrite (format_worksheet_eq (format_worksheet ws hc1 fp1)).
  rewrite (format_worksheet_eq ws hc1), (format_worksheet_eq ws hc2).
  cbn [rows freeze_panes column_dimensions].
  rewrite formatted_rows_again, header_styled_again.
  rewrite width_entries_formatted_rows.
  rewrite (width_entries_any_colour 3 60 hc1 hc2), assign_all_twice.
  rewrite dimensions_header_styled.
  f_equal. by destruct fp1, fp2.
Qed.

(** * Further properties of the generation blocks *)

(** ** Header colours *)

Lemma find_key_elem {V} (l : list (string * V)) k v :
  NoDup (l.*1) → (k, v) ∈ l →
  List.find (λ kv, String.eqb kv.1 k) l = Some (k, v).
Proof.
  induction l as [|[k0 v0] l IH]; intros Hnd Hin; [by apply elem_of_nil in Hin|].
  cbn in Hnd. apply NoDup_cons in Hnd as [Hk0 Hnd].
  cbn [List.find fst]. destruct (String.eqb_spec k0 k) as [->|Hne].
  - apply elem_of_cons in Hin as [[= ->]|Hin]; [done|].
    exfalso. apply Hk0. apply list_elem_of_fmap. by exists (k, v).
  - apply elem_of_cons in Hin as [[= ? ?]|Hin]; [congruence|]. by apply IH.
Qed.

Lemma find_key_missing {V} (l : list (string * V)) k :
  k ∉ l.*1 → List.find (λ kv, String.eqb kv.1 k) l = None.
Proof.
  induction l as [|[k0 v0] l IH]; intros Hk; [done|].
  cbn [List.find fst]. destruct (String.eqb_spec k0 k) as [->|Hne].
  - exfalso. apply Hk. left.
  - apply IH. intros Hin. apply Hk. by right.
Qed.

Lemma cpp_output_sheet hs tables name ws :
  (name, ws) ∈ cpp_output hs tables →
  ∃ w, (name, w) ∈ write_tables hs tables
       ∧ ws = stored_sheet
                (format_worksheet (stored_sheet w) (colors_get name "4472C4") true).
Proof.
  unfold cpp_output, stored_book, format_book. rewrite !map_map. cbn [fst snd].
  intros Hin. apply list_elem_of_In, in_map_iff in Hin as ([n w] & [= <- <-] & Hw).
  exists w. split; [by apply list_elem_of_In|done].
Qed.

(** X8: in the file of the C++ functions catalog script the header cells
    of a sheet carry the colour that [colors] gives for the sheet's
    name, and the default colour 4472C4 when the name is not a key of
    [colors]. *)
Theorem header_colour_follows_sheet_name
    (hs : option HeaderStyle) (tables : list Table) (path : string)
    (fs : gmap string Book) (book : Book) (name : string) (ws : Worksheet)
    (c : Cell) :
  rendered (generate_cpp_functions_catalog hs tables path fs) path = Some book →
  (name, ws) ∈ book →
  c ∈ hd [] (rows ws) →
  (∀ colour, (name, colour) ∈ colors → fill c = header_fill colour)
  ∧ (name ∉ colors.*1 → fill c = header_fill "4472C4").
Proof.
  rewrite rendered_cpp. case_bool_decide; [done|]. intros [= <-] Hin Hc.
  apply cpp_output_sheet in Hin as (w & _ & ->).
  cbn [stored_sheet rows] in Hc. rewrite rows_format_worksheet in Hc.
  unfold formatted_rows in Hc. cbn [map hd] in Hc.
  apply list_elem_of_In, in_map_iff in Hc as (c1 & <- & Hc1).
  apply in_map_iff in Hc1 as (c0 & <- & _).
  cbn [stored_cell set_value style_header_cell fill].
  unfold colors_get. split.
  - intros colour Hcol. rewrite (find_key_elem colors name colour); [done| |done].
    compute_done.
  - intros Hname. by rewrite find_key_missing.
Qed.

Lemma header_colour_follows_sheet_name_witness :
  let c := mkCell (VStr "Name") (header_fill "4472C4") header_font
                  header_alignment thin_border in
  (∀ colour, ("Demo", colour) ∈ colors → fill c = header_fill colour)
  ∧ ("Demo" ∉ colors.*1 → fill c = header_fill "4472C4").
Proof.
  intros c.
  eapply (header_colour_follows_sheet_name (Some pandas_header_style) demo
            "out.xlsx" ∅ _ "Demo" _ c).
  - vm_compute. reflexivity.
  - left.
  - left.
Defined.

(** ** The auto-filter range of a table *)

Lemma length_sheet_values ws : length (sheet_values ws) = length (rows ws).
Proof. apply length_map. Qed.

(** X9: for a valid workbook, the auto-filter of each sheet of the C++
    functions catalog file covers the whole table: from A1 to the column
    of the last field and the row of the last record. *)
Theorem auto_filter_covers_table
    (hs : option HeaderStyle) (tables : list Table) (path : string)
    (fs : gmap string Book) (book : Book) :
  valid_workbook tables →
  rendered (generate_cpp_functions_catalog hs tables path fs) path = Some book →
  Forall2 (λ t s,
             auto_filter_ref s.2
             = Some ("A1:" +:+ get_column_letter (length (table_fields t))
                     +:+ pretty (S (length (records t)))))
          tables book.
Proof.
  intros (_ & Hnd & Hall). rewrite rendered_cpp. case_bool_decide; [done|].
  intros [= <-]. unfold cpp_output. rewrite write_tables_NoDup by done.
  unfold stored_book, format_book. rewrite !map_map.
  eapply Forall2_map_r_diag; [exact Hall|]. intros t Hc. cbn [fst snd].
  pose proof (stored_sheet_shaped _ _ (table_sheet_shaped hs t Hc))
    as (Hn & Hne & Hrect).
  assert (length (rows (stored_sheet (table_sheet hs t).2)) = S (length (records t)))
    as Hlen.
  { rewrite <- length_sheet_values, sheet_values_stored, length_map.
    rewrite table_sheet_values by done. unfold written_values. cbn [length].
    by rewrite length_map, length_df_values. }
  cbn [stored_sheet auto_filter_ref]. rewrite format_worksheet_eq.
  cbn [auto_filter_ref]. unfold dimensions.
  rewrite max_column_header_styled, (max_column_rect _ _ Hn Hne Hrect).
  unfold max_row. rewrite length_header_styled. unfold max_row.
  rewrite Hlen. do 3 f_equal; lia.
Qed.

Lemma auto_filter_covers_table_witness :
  Forall2 (λ t s,
             auto_filter_ref s.2
             = Some ("A1:" +:+ get_column_letter (length (table_fields t))
                     +:+ pretty (S (length (records t)))))
          demo (cpp_output (Some pandas_header_style) demo).
Proof.
  apply (auto_filter_covers_table (Some pandas_header_style) demo "out.xlsx" ∅).
  - exact demo_valid.
  - vm_compute. reflexivity.
Defined.

(** ** Records that do not share their keys *)

Lemma stored_values_idem vss :
  map (map stored_value) (map (map stored_value) vss) = map (map stored_value) vss.
Proof.
  rewrite map_map. apply map_ext. intros vs. rewrite map_map.
  apply map_ext. intros v. apply stored_value_idem.
Qed.

Lemma record_get_missing (r : record) k : k ∉ r.*1 → record_get r k = VNone.
Proof. intros Hk. unfold record_get. by rewrite find_key_missing. Qed.

(** X10: the records of a table need not share their keys.  The columns
    of its sheet are the keys of all its records, each at its first
    appearance; every record fills one row, and where a record lacks a
    key its cell is empty (read back as absent).  This holds of the files
    of both scripts, for tables with distinct sheet names and at least one
    key. *)
Theorem missing_fields_become_empty_cells
    (hs : option HeaderStyle) (tables : list Table) (path : string)
    (fs : gmap string Book) (book_cpp book_ds : Book) :
  NoDup (map sheet_name tables) →
  Forall (λ t, union_keys (records t) ≠ []) tables →
  rendered (generate_cpp_functions_catalog hs tables path fs) path = Some book_cpp →
  rendered (generate_datastructures_catalog hs tables path fs) path = Some book_ds →
  Forall2 (λ t s, s.1 = sheet_name t
                  ∧ sheet_values s.2
                    = map (map stored_value) (frame_values (records t)))
          tables book_cpp
  ∧ Forall2 (λ t s, s.1 = sheet_name t
                    ∧ sheet_values s.2
                      = map (map stored_value) (frame_values (records t)))
            tables book_ds
  ∧ (∀ (r : record) k, k ∉ r.*1 → stored_value (record_get r k) = VNone).
Proof.
  intros Hnd Hall. rewrite rendered_cpp, rendered_ds.
  case_bool_decide; [done|]. intros [= <-] [= <-].
  unfold cpp_output, ds_output. rewrite write_tables_NoDup by done.
  unfold stored_book, format_book, adjust_book. rewrite !map_map.
  split; [|split].
  - eapply Forall2_map_r_diag; [exact Hall|]. intros t Ht. cbn [fst snd].
    split; [done|].
    pose proof (table_sheet_shaped_any hs t Ht) as Hshape.
    rewrite sheet_values_stored.
    rewrite (sheet_values_format_worksheet _ _ _ _ (stored_sheet_shaped _ _ Hshape)).
    rewrite sheet_values_stored, table_sheet_values_any by done.
    by rewrite stored_written_values, stored_values_idem.
  - eapply Forall2_map_r_diag; [exact Hall|]. intros t Ht. cbn [fst snd].
    split; [done|].
    pose proof (table_sheet_shaped_any hs t Ht) as Hshape.
    rewrite sheet_values_stored, (sheet_values_auto_adjust_widths _ _ Hshape).
    by rewrite table_sheet_values_any, stored_written_values.
  - intros r k Hk. by rewrite record_get_missing.
Qed.

Lemma missing_fields_become_empty_cells_witness :
  let containers :=
    [ mkTable "Other Containers"
        [ [("Container", VStr "stack"); ("Notes", VStr "Adapter")];
          [("Container", VStr "array"); ("vs_vector", VStr "Fixed size")] ] ] in
  ∃ ws,
    cpp_output (Some pandas_header_style) containers = [("Other Containers", ws)]
    ∧ sheet_values ws
      = [ [VStr "Container"; VStr "Notes"; VStr "vs_vector"];
          [VStr "stack"; VStr "Adapter"; VNone];
          [VStr "array"; VNone; VStr "Fixed size"] ].
Proof.
  intros containers.
  destruct (missing_fields_become_empty_cells (Some pandas_header_style) containers
              "out.xlsx" ∅ (cpp_output (Some pandas_header_style) containers)
              (ds_output (Some pandas_header_style) containers))
    as (Hcpp & _ & _).
  - compute_done.
  - repeat constructor. discriminate.
  - vm_compute. reflexivity.
  - vm_compute. reflexivity.
  - eexists. split; [vm_compute; reflexivity|].
    apply Forall2_cons_1 in Hcpp as [[_ Hv] _]. exact Hv.
Defined.

(** ** Widths in the two files *)

Lemma max_text_length_values_width col :
  max_text_length col = values_width (map value_of col).
Proof.
  induction col as [|c col IH]; [done|].
  change (Nat.max (len (str (value_of c))) (max_text_length col)
          = Nat.max (len (str (value_of c))) (values_width (map value_of col))).
  by rewrite IH.
Qed.

Lemma column_of_values (ws : Worksheet) j :
  map value_of (column_of (rows ws) j) = column_values (sheet_values ws) j.
Proof.
  unfold column_of, column_values, sheet_values. rewrite !map_map.
  apply map_ext. intros r. symmetry. apply (map_nth value_of r blank).
Qed.

Lemma cpp_output_widths hs tables :
  valid_workbook tables →
  Forall2 (λ t s, ∀ j, j < length (table_fields t) →
             column_dimensions s.2 !! get_column_letter (S j)
             = Some (Nat.min (values_width (column_values (table_values t) j) + 3) 60))
          tables (cpp_output hs tables).
Proof.
  intros (_ & Hnd & Hall). unfold cpp_output. rewrite write_tables_NoDup by done.
  unfold stored_book, format_book. rewrite !map_map.
  eapply Forall2_map_r_diag; [exact Hall|]. intros t Hc j Hj. cbn [fst snd].
  pose proof (stored_sheet_shaped _ _ (table_sheet_shaped hs t Hc))
    as (Hn & Hne & Hrect).
  cbn [stored_sheet column_dimensions]. rewrite format_worksheet_eq.
  cbn [column_dimensions].
  rewrite width_entries_lookup;
    [|apply header_styled_nonempty
     |by rewrite max_column_header_styled, (max_column_rect _ _ Hn Hne Hrect)].
  rewrite (max_text_length_values _ _ (column_values_header_styled _ _ j Hne)).
  rewrite max_text_length_values_width.
  rewrite (column_of_values (stored_sheet (table_sheet hs t).2)).
  by rewrite sheet_values_stored, table_sheet_values, stored_table_values.
Qed.

Lemma ds_output_widths hs tables :
  valid_workbook tables →
  Forall2 (λ t s, ∀ j, j < length (table_fields t) →
             column_dimensions s.2 !! get_column_letter (S j)
             = Some (Nat.min (values_width (column_values (written_values t) j) + 2) 50))
          tables (ds_output hs tables).
Proof.
  intros (_ & Hnd & Hall). unfold ds_output. rewrite write_tables_NoDup by done.
  unfold stored_book, adjust_book. rewrite !map_map.
  eapply Forall2_map_r_diag; [exact Hall|]. intros t Hc j Hj. cbn [fst snd].
  pose proof (table_sheet_shaped hs t Hc) as (Hn & Hne & Hrect).
  cbn [stored_sheet auto_adjust_widths column_dimensions].
  rewrite adjust_column_widths_entries.
  rewrite width_entries_lookup;
    [|done|by rewrite (max_column_rect _ _ Hn Hne Hrect)].
  rewrite max_text_length_values_width, column_of_values.
  by rewrite table_sheet_values.
Qed.

(** X11: for a valid workbook, the width of each column is measured on
    different values in the two files.  The C++ functions catalog
    script measures the reloaded sheet, where an absent or empty value is
    [None] and counts 4 and a number is an integer; the data-structures
    script measures the cells as written, where an absent value is the
    empty string and counts 0, and where the integers of a column with
    absent values are floats ([1.0] counts 3). *)
Theorem widths_measure_reloaded_or_written_values
    (hs : option HeaderStyle) (tables : list Table) (path : string)
    (fs : gmap string Book) (book_cpp book_ds : Book) :
  valid_workbook tables →
  rendered (generate_cpp_functions_catalog hs tables path fs) path = Some book_cpp →
  rendered (generate_datastructures_catalog hs tables path fs) path = Some book_ds →
  Forall2 (λ t s, ∀ j, j < length (table_fields t) →
             column_dimensions s.2 !! get_column_letter (S j)
             = Some (Nat.min (values_width (column_values (table_values t) j) + 3) 60))
          tables book_cpp
  ∧ Forall2 (λ t s, ∀ j, j < length (table_fields t) →
               column_dimensions s.2 !! get_column_letter (S j)
               = Some (Nat.min (values_width (column_values (written_values t) j) + 2) 50))
            tables book_ds.
Proof.
  intros Hvalid. rewrite rendered_cpp, rendered_ds.
  case_bool_decide; [done|]. intros [= <-] [= <-].
  split; [by apply cpp_output_widths|by apply ds_output_widths].
Qed.

Lemma widths_measure_reloaded_or_written_values_witness :
  let tables := [ mkTable "T" [ [("v", VInt 1)]; [("v", VNone)] ] ] in
  ∃ ws_cpp ws_ds,
    cpp_output (Some pandas_header_style) tables = [("T", ws_cpp)]
    ∧ ds_output (Some pandas_header_style) tables = [("T", ws_ds)]
    ∧ column_dimensions ws_cpp !! "A" = Some 7
    ∧ column_dimensions ws_ds !! "A" = Some 5.
Proof.
  intros tables.
  destruct (widths_measure_reloaded_or_written_values (Some pandas_header_style)
              tables "out.xlsx" ∅ (cpp_output (Some pandas_header_style) tables)
              (ds_output (Some pandas_header_style) tables)) as [Hcpp Hds].
  - solve_valid_workbook.
  - vm_compute. reflexivity.
  - vm_compute. reflexivity.
  - eexists _, _. split; [vm_compute; reflexivity|].
    split; [vm_compute; reflexivity|].
    apply Forall2_cons_1 in Hcpp as [Hcpp _].
    apply Forall2_cons_1 in Hds as [Hds _].
    split; [exact (Hcpp 0 (Nat.lt_0_1))|exact (Hds 0 (Nat.lt_0_1))].
Defined.

(** ** A table without fields *)

(** X12: a table without records, or whose records have no key, still
    gets its sheet.  In the file of the C++ functions catalog script the
    sheet holds the one cell A1, empty and styled as a header, with the
    auto-filter on A1:A1, the pane frozen at B2 and column A at width 7;
    in the file of the data-structures script the sheet has no cell and
    no column width. *)
Theorem table_without_fields_gives_blank_sheet
    (hs : option HeaderStyle) (tables : list Table) (path : string)
    (fs : gmap string Book) (t : Table) :
  NoDup (map sheet_name tables) →
  t ∈ tables →
  union_keys (records t) = [] →
  ∃ book_cpp book_ds,
    rendered (generate_cpp_functions_catalog hs tables path fs) path = Some book_cpp
    ∧ rendered (generate_datastructures_catalog hs tables path fs) path = Some book_ds
    ∧ (sheet_name t,
       mkWorksheet [ [style_header_cell (colors_get (sheet_name t) "4472C4") blank] ]
                   (Some "A1:A1") (Some "B2") {[ "A" := 7 ]}) ∈ book_cpp
    ∧ (sheet_name t, mkWorksheet [] None None ∅) ∈ book_ds.
Proof.
  intros Hnd Ht Hkeys.
  assert (tables ≠ []) as Hne by (intros ->; by apply elem_of_nil in Ht).
  assert (table_sheet hs t = (sheet_name t, mkWorksheet [] None None ∅)) as Hsheet.
  { unfold table_sheet, excel_cells, pd_DataFrame. cbn [df_columns].
    by rewrite Hkeys. }
  exists (cpp_output hs tables), (ds_output hs tables).
  rewrite rendered_cpp, rendered_ds, !bool_decide_false by done.
  split; [done|]. split; [done|].
  unfold cpp_output, ds_output. rewrite write_tables_NoDup by done.
  unfold stored_book, format_book, adjust_book. rewrite !map_map. split.
  - apply list_elem_of_In, in_map_iff. exists t. rewrite Hsheet.
    split; [reflexivity|by apply list_elem_of_In].
  - apply list_elem_of_In, in_map_iff. exists t. rewrite Hsheet.
    split; [reflexivity|by apply list_elem_of_In].
Qed.

Lemma table_without_fields_gives_blank_sheet_witness :
  let tables := [ mkTable "Empty" [] ] in
  ∃ book_cpp book_ds,
    rendered (generate_cpp_functions_catalog (Some pandas_header_style) tables
                "out.xlsx" ∅) "out.xlsx" = Some book_cpp
    ∧ rendered (generate_datastructures_catalog (Some pandas_header_style) tables
                  "out.xlsx" ∅) "out.xlsx" = Some book_ds
    ∧ ("Empty",
       mkWorksheet [ [style_header_cell (colors_get "Empty" "4472C4") blank] ]
                   (Some "A1:A1") (Some "B2") {[ "A" := 7 ]}) ∈ book_cpp
    ∧ ("Empty", mkWorksheet [] None None ∅) ∈ book_ds.
Proof.
  intros tables.
  apply (table_without_fields_gives_blank_sheet (Some pandas_header_style) tables
           "out.xlsx" ∅ (mkTable "Empty" [])).
  - compute_done.
  - left.
  - reflexivity.
Defined.

(** ** The header style of the writer *)

Lemma write_row_same_values hs1 hs2 (vs : list value) old1 old2 :
  Forall2 (λ c1 c2, value_of c1 = value_of c2 ∧ fill c1 = fill c2) old1 old2 →
  Forall2 (λ c1 c2, value_of c1 = value_of c2 ∧ fill c1 = fill c2)
          (write_row (map (λ v, (v, hs1)) vs) old1)
          (write_row (map (λ v, (v, hs2)) vs) old2).
Proof.
  intros Hold. revert old1 old2 Hold.
  induction vs as [|v vs IH]; intros old1 old2 Hold; [done|].
  destruct Hold as [|c1 c2 old1 old2 Hc Hold]; cbn [map write_row].
  - constructor; [|by apply IH].
    by rewrite !value_of_write_cell, !fill_write_cell.
  - constructor; [|by apply IH].
    rewrite !value_of_write_cell, !fill_write_cell. by destruct Hc.
Qed.

Lemma excel_cells_header hs df :
  excel_cells hs df
  = match df_columns df with
    | [] => []
    | cols => map (λ v, (v, hs)) (map VStr cols)
              :: map (map (λ v, (na_rep v, None))) (df_values df)
    end.
Proof.
  unfold excel_cells. destruct (df_columns df); [done|]. by rewrite map_map.
Qed.

Lemma write_rows_same_below_header_style hs1 hs2 df ws1 ws2 :
  same_below_header_style ws1 ws2 →
  same_below_header_style
    (mkWorksheet (write_rows (excel_cells hs1 df) (rows ws1)) (auto_filter_ref ws1)
                 (freeze_panes ws1) (column_dimensions ws1))
    (mkWorksheet (write_rows (excel_cells hs2 df) (rows ws2)) (auto_filter_ref ws2)
                 (freeze_panes ws2) (column_dimensions ws2)).
Proof.
  intros (Hhd & Htl & Hnil & Ha & Hf & Hd). rewrite !excel_cells_header.
  destruct (df_columns df) as [|col cols].
  { by repeat split; cbn; try apply Hnil. }
  set (header := map VStr (col :: cols)).
  set (body := map (map (λ v, (na_rep v, @None HeaderStyle))) (df_values df)).
  unfold same_below_header_style. cbn [rows auto_filter_ref freeze_panes column_dimensions].
  destruct (rows ws1) as [|r1 t1], (rows ws2) as [|r2 t2]; cbn [hd tl write_rows] in *.
  - repeat split; try done. by apply write_row_same_values.
  - repeat split; try done; [by apply write_row_same_values|by rewrite <- Htl].
  - repeat split; try done; [by apply write_row_same_values|by rewrite Htl].
  - repeat split; try done; [by apply write_row_same_values|by rewrite Htl].
Qed.

Lemma write_cells_same_below_header_style hs1 hs2 name df (b1 b2 : Book) :
  Forall2 (λ s1 s2, s1.1 = s2.1 ∧ same_below_header_style s1.2 s2.2) b1 b2 →
  Forall2 (λ s1 s2, s1.1 = s2.1 ∧ same_below_header_style s1.2 s2.2)
          (write_cells name (excel_cells hs1 df) b1)
          (write_cells name (excel_cells hs2 df) b2).
Proof.
  induction 1 as [|[n1 w1] [n2 w2] b1 b2 [Hn Hw] Hb IH]; cbn [write_cells].
  - constructor; [|done]. split; [done|].
    apply (write_rows_same_below_header_style hs1 hs2 df
             (mkWorksheet [] None None ∅) (mkWorksheet [] None None ∅)).
    by repeat split.
  - cbn in Hn. subst n2. destruct (String.eqb n1 name).
    + constructor; [|done]. split; [done|].
      by apply write_rows_same_below_header_style.
    + constructor; [done|apply IH].
Qed.

Lemma write_tables_same_below_header_style hs1 hs2 tables :
  Forall2 (λ s1 s2, s1.1 = s2.1 ∧ same_below_header_style s1.2 s2.2)
          (write_tables hs1 tables) (write_tables hs2 tables).
Proof.
  unfold write_tables.
  assert (Forall2 (λ s1 s2 : string * Worksheet,
                     s1.1 = s2.1 ∧ same_below_header_style s1.2 s2.2) [] [])
    as Hnil by constructor.
  revert Hnil. generalize (@nil (string * Worksheet)) at 1 3.
  generalize (@nil (string * Worksheet)).
  induction tables as [|t tables IH]; intros b2 b1 Hb; [done|].
  cbn [foldl]. apply IH. unfold to_excel.
  by apply write_cells_same_below_header_style.
Qed.

Lemma style_header_cell_values hc (l1 l2 : list Cell) :
  Forall2 (λ c1 c2, value_of c1 = value_of c2 ∧ fill c1 = fill c2) l1 l2 →
  map (style_header_cell hc) l1 = map (style_header_cell hc) l2.
Proof.
  induction 1 as [|c1 c2 l1 l2 [Hv _] Hl IH]; [done|].
  cbn [map]. rewrite IH. f_equal. unfold style_header_cell. by rewrite Hv.
Qed.

Lemma format_worksheet_same_below_header_style ws1 ws2 hc fp :
  same_below_header_style ws1 ws2 →
  format_worksheet ws1 hc fp = format_worksheet ws2 hc fp.
Proof.
  intros (Hhd & Htl & Hnil & Ha & Hf & Hd).
  assert (length (hd [] (rows ws1)) = length (hd [] (rows ws2))) as Hlen
    by (by eapply Forall2_length).
  assert (max_column (rows ws1) = max_column (rows ws2)) as Hmax.
  { destruct (rows ws1) as [|r1 t1], (rows ws2) as [|r2 t2]; cbn [hd tl] in *.
    - done.
    - discriminate (proj1 Hnil eq_refl).
    - discriminate (proj2 Hnil eq_refl).
    - rewrite !max_column_cons. by rewrite Hlen, Htl. }
  assert (header_styled hc (rows ws1) = header_styled hc (rows ws2)) as Hhs.
  { unfold header_styled, row1. rewrite Hmax, Htl. f_equal.
    apply style_header_cell_values. unfold pad. rewrite Hlen.
    apply Forall2_app; [done|]. by apply Forall_Forall2_diag, Forall_forall. }
  unfold format_worksheet. fold (header_styled hc (rows ws1)).
  fold (header_styled hc (rows ws2)). by rewrite Hhs, Hf, Hd.
Qed.

Lemma stored_cells_same_values (l1 l2 : list Cell) :
  Forall2 (λ c1 c2, value_of c1 = value_of c2 ∧ fill c1 = fill c2) l1 l2 →
  Forall2 (λ c1 c2, value_of c1 = value_of c2 ∧ fill c1 = fill c2)
          (map stored_cell l1) (map stored_cell l2).
Proof.
  induction 1 as [|c1 c2 l1 l2 [Hv Hfill] Hl IH]; [done|].
  cbn [map]. constructor; [|done]. cbn. by rewrite Hv, Hfill.
Qed.

Lemma stored_sheet_same_below_header_style ws1 ws2 :
  same_below_header_style ws1 ws2 →
  same_below_header_style (stored_sheet ws1) (stored_sheet ws2).
Proof.
  intros (Hhd & Htl & Hnil & Ha & Hf & Hd).
  unfold same_below_header_style. cbn [stored_sheet rows auto_filter_ref
    freeze_panes column_dimensions].
  destruct (rows ws1) as [|r1 t1], (rows ws2) as [|r2 t2]; cbn [hd tl map] in *.
  - by repeat split.
  - discriminate (proj1 Hnil eq_refl).
  - discriminate (proj2 Hnil eq_refl).
  - split; [by apply stored_cells_same_values|]. split; [by rewrite Htl|].
    by repeat split.
Qed.

(** X13: the file of the C++ functions catalog script does not depend on
    the style the pandas writer gives its header cells: [format_worksheet]
    replaces the fill, font, alignment and border of every cell of row 1,
    and the writer styles no other cell. *)
Theorem formatted_file_independent_of_writer_style
    (hs1 hs2 : option HeaderStyle) (tables : list Table) (path : string)
    (fs : gmap string Book) :
  rendered (generate_cpp_functions_catalog hs1 tables path fs) path
  = rendered (generate_cpp_functions_catalog hs2 tables path fs) path.
Proof.
  rewrite !rendered_cpp. case_bool_decide; [done|]. f_equal.
  unfold cpp_output, stored_book, format_book. rewrite !map_map. cbn [fst snd].
  pose proof (write_tables_same_below_header_style hs1 hs2 tables) as Hrel.
  induction Hrel as [|[n1 w1] [n2 w2] b1 b2 [Hn Hw] Hb IH]; [done|].
  cbn [map fst snd] in *. subst n2. rewrite IH. do 3 f_equal.
  by apply format_worksheet_same_below_header_style,
    stored_sheet_same_below_header_style.
Qed.

(** * Column widths in the files *)

(** ** Values of a reloaded and formatted sheet *)

Lemma value_of_cell_at_format ws hc fp i j :
  value_of (cell_at (format_worksheet ws hc fp) i j) = value_of (cell_at ws i j).
Proof.
  unfold cell_at. rewrite rows_format_worksheet. destruct i as [|k].
  - rewrite cell_at_formatted_head.
    destruct (Nat.ltb_spec j (max_column (rows ws))) as [Hj|Hj]; [done|].
    rewrite nth_overflow; [done|].
    destruct (rows ws) as [|h t]; cbn [nth length]; [lia|].
    rewrite max_column_cons in Hj. lia.
  - rewrite cell_at_formatted_tail, value_of_band_rows_cell, cell_at_pad.
    by rewrite nth_tl.
Qed.

Lemma value_of_cell_at_stored ws i j :
  value_of (cell_at (stored_sheet ws) i j) = stored_value (value_of (cell_at ws i j)).
Proof. unfold cell_at, stored_sheet. cbn [rows]. by rewrite cell_at_map. Qed.

Lemma column_values_stored_normal (rs : list (list Cell)) j :
  (∀ i, stored_value (value_of (nth j (nth i rs []) blank))
        = value_of (nth j (nth i rs []) blank)) →
  map value_of (column_of (map (map stored_cell) rs) j)
  = map value_of (column_of rs j).
Proof.
  intros Hnorm. unfold column_of. rewrite !map_map. apply map_ext_in.
  intros r Hr. destruct (In_nth _ _ [] Hr) as (i & _ & <-).
  rewrite <- (Hnorm i).
  change blank with (stored_cell blank) at 1. by rewrite map_nth.
Qed.

Lemma max_column_stored rs :
  max_column (map (map stored_cell) rs) = max_column rs.
Proof.
  apply max_column_lengths. rewrite map_map. apply map_ext. intros r.
  apply length_map.
Qed.

(** ** C5 *)

(** C5: in the file of either script every column of every sheet has
    the width [min (L + m) C], where [L] is the maximum textual length of
    the cell values of the column, header included.  The C++ functions
    catalog script measures the cells of the sheet it saves, with margin
    3 and cap 60; the data-structures script measures the cells of the
    sheet as the writer holds it, with margin 2 and cap 50.  Below the
    cap the width is exactly [L + m]. *)
Theorem every_column_width_is_capped_max_length
    (hs : option HeaderStyle) (tables : list Table) (path : string)
    (fs : gmap string Book) (book_cpp book_ds : Book) :
  rendered (generate_cpp_functions_catalog hs tables path fs) path = Some book_cpp →
  rendered (generate_datastructures_catalog hs tables path fs) path = Some book_ds →
  Forall (λ s, ∀ j, j < max_column (rows s.2) →
            column_dimensions s.2 !! get_column_letter (S j)
            = Some (Nat.min (max_text_length (column_of (rows s.2) j) + 3) 60))
         book_cpp
  ∧ Forall2 (λ w s, ∀ j, rows w.2 ≠ [] → j < max_column (rows w.2) →
               column_dimensions s.2 !! get_column_letter (S j)
               = Some (Nat.min (max_text_length (column_of (rows w.2) j) + 2) 50))
            (write_tables hs tables) book_ds.
Proof.
  rewrite rendered_cpp, rendered_ds. case_bool_decide; [done|].
  intros [= <-] [= <-]. split.
  - apply Forall_forall. intros [name ws] Hin j Hj. cbn [snd] in *.
    apply cpp_output_sheet in Hin as (w & _ & ->).
    set (F := format_worksheet (stored_sheet w) (colors_get name "4472C4") true) in *.
    cbn [stored_sheet rows column_dimensions] in *.
    rewrite max_column_stored in Hj.
    assert (max_column (rows F) = max_column (rows (stored_sheet w))) as Hmax.
    { unfold F. rewrite rows_format_worksheet. apply max_column_formatted_rows. }
    rewrite Hmax in Hj.
    destruct (width_loop_assigns_capped_max_length (stored_sheet w)
                (colors_get name "4472C4") true j Hj) as [Hw _].
    fold F in Hw. rewrite Hw. do 3 f_equal. symmetry.
    apply max_text_length_values, column_values_stored_normal. intros i.
    fold (cell_at F i j). unfold F.
    by rewrite value_of_cell_at_format, value_of_cell_at_stored, stored_value_idem.
  - unfold ds_output, stored_book, adjust_book. rewrite map_map.
    eapply Forall2_map_r_diag; [apply write_tables_plain|].
    intros [n w] _ j Hne Hj. cbn [fst snd] in *.
    destruct (width_loop_assigns_capped_max_length w "" true j Hj) as [_ Hw].
    cbn [stored_sheet column_dimensions]. rewrite (Hw Hne).
    unfold auto_adjust_widths. cbn [rows].
    by rewrite column_values_materialize.
Qed.

Lemma every_column_width_is_capped_max_length_witness :
  Forall (λ s, ∀ j, j < max_column (rows s.2) →
            column_dimensions s.2 !! get_column_letter (S j)
            = Some (Nat.min (max_text_length (column_of (rows s.2) j) + 3) 60))
         (cpp_output (Some pandas_header_style) demo)
  ∧ Forall2 (λ w s, ∀ j, rows w.2 ≠ [] → j < max_column (rows w.2) →
               column_dimensions s.2 !! get_column_letter (S j)
               = Some (Nat.min (max_text_length (column_of (rows w.2) j) + 2) 50))
            (write_tables (Some pandas_header_style) demo)
            (ds_output (Some pandas_header_style) demo).
Proof.
  apply (every_column_width_is_capped_max_length (Some pandas_header_style) demo
           "out.xlsx" ∅); vm_compute; reflexivity.
Defined.

(** ** C10 *)










(** * Styles in the file of the data-structures script *)

(** ** The styles the writer leaves *)

Lemma length_write_row ws old :
  length (write_row ws old) = Nat.max (length ws) (length old).
Proof.
  revert old. induction ws as [|w ws IH]; intros old; [done|].
  destruct old as [|c old]; cbn [write_row length]; rewrite IH; cbn; lia.
Qed.

Lemma write_rows_cons cs css rs :
  write_rows (cs :: css) rs = write_row cs (hd [] rs) :: write_rows css (tl rs).
Proof. by destruct rs. Qed.

Lemma write_row_header_style hs (vs : list value) old :
  Forall (λ c, font c = writer_font hs ∧ alignment c = writer_alignment hs
               ∧ border c = writer_border hs) old →
  Forall (λ c, font c = writer_font hs ∧ alignment c = writer_alignment hs
               ∧ border c = writer_border hs)
         (write_row (map (λ v, (v, hs)) vs) old).
Proof.
  intros Hold. revert old Hold. induction vs as [|v vs IH]; intros old Hold; [done|].
  destruct Hold as [|c old Hc Hold]; cbn [map write_row].
  - constructor; [|by apply IH]. by destruct hs.
  - constructor; [|by apply IH]. destruct hs; [done|]. exact Hc.
Qed.

Lemma write_row_no_style (vs : list value) old :
  Forall (λ c, font c = default_font ∧ alignment c = default_alignment
               ∧ border c = default_border) old →
  Forall (λ c, font c = default_font ∧ alignment c = default_alignment
               ∧ border c = default_border)
         (write_row (map (λ v, (na_rep v, None)) vs) old).
Proof.
  intros Hold. revert old Hold. induction vs as [|v vs IH]; intros old Hold; [done|].
  destruct Hold as [|c old Hc Hold]; cbn [map write_row].
  - constructor; [done|by apply IH].
  - constructor; [exact Hc|by apply IH].
Qed.

Lemma write_rows_no_style (vss : list (list value)) old :
  Forall (Forall (λ c, font c = default_font ∧ alignment c = default_alignment
                       ∧ border c = default_border)) old →
  Forall (Forall (λ c, font c = default_font ∧ alignment c = default_alignment
                       ∧ border c = default_border))
         (write_rows (map (map (λ v, (na_rep v, None))) vss) old).
Proof.
  intros Hold. revert old Hold. induction vss as [|vs vss IH]; intros old Hold; [done|].
  destruct Hold as [|r old Hr Hold]; cbn [map write_rows].
  - constructor; [by apply write_row_no_style|by apply IH].
  - constructor; [by apply write_row_no_style|by apply IH].
Qed.

Lemma write_rows_length_bound {A} (css : list (list A)) f old L :
  Forall (λ cs, length cs ≤ L) css →
  Forall (λ r : list Cell, length r ≤ L) old →
  Forall (λ r : list Cell, length r ≤ L) (write_rows (map (map f) css) old).
Proof.
  intros Hcss. revert old. induction Hcss as [|cs css Hcs Hcss IH]; intros old Hold;
    [done|].
  destruct Hold as [|r old Hr Hold]; cbn [map write_rows].
  - constructor; [|by apply IH]. rewrite length_write_row, length_map. cbn. lia.
  - constructor; [|by apply IH]. rewrite length_write_row, length_map. lia.
Qed.

Lemma write_rows_writer_styled hs df rs :
  Forall (λ row, length row = length (df_columns df)) (df_values df) →
  writer_styled hs rs →
  writer_styled hs (write_rows (excel_cells hs df) rs).
Proof.
  intros Hrect (Hhd & Htl & Hlen & Hne). rewrite excel_cells_header.
  destruct (df_columns df) as [|col cols] eqn:Hcols; [done|].
  rewrite write_rows_cons. unfold writer_styled. cbn [hd tl].
  set (header := map (λ v, (v, hs)) (map VStr (col :: cols))).
  assert (length header = S (length cols)) as Hheader
    by (unfold header; by rewrite !length_map).
  split; [by apply write_row_header_style|].
  split; [by apply write_rows_no_style|].
  split; [|right; rewrite length_write_row; lia].
  constructor; [done|]. rewrite length_write_row.
  apply write_rows_length_bound.
  - eapply Forall_impl; [exact Hrect|]. intros row Hrow. cbn in Hrow. lia.
  - destruct rs as [|r t]; [done|]. cbn [hd tl] in *.
    apply Forall_cons in Hlen as [_ Hlen].
    eapply Forall_impl; [exact Hlen|]. intros r' Hr'. cbn in Hr'. lia.
Qed.

Lemma write_cells_writer_styled hs df name (book : Book) :
  Forall (λ row, length row = length (df_columns df)) (df_values df) →
  Forall (λ s, writer_styled hs (rows s.2)) book →
  Forall (λ s, writer_styled hs (rows s.2)) (write_cells name (excel_cells hs df) book).
Proof.
  intros Hrect. induction 1 as [|[n ws] rest Hws Hrest IH]; cbn [write_cells].
  - constructor; [|done]. cbn [snd rows].
    apply write_rows_writer_styled; [done|].
    repeat split; try done. by left.
  - destruct (String.eqb n name).
    + constructor; [|done]. cbn [snd rows] in *.
      by apply write_rows_writer_styled.
    + by constructor.
Qed.

Lemma write_tables_writer_styled hs tables :
  Forall (λ s, writer_styled hs (rows s.2)) (write_tables hs tables).
Proof.
  unfold write_tables.
  generalize (Forall_nil_2 (λ s : string * Worksheet, writer_styled hs (rows s.2))).
  generalize (@nil (string * Worksheet)). induction tables as [|t tables IH];
    intros book Hbook; [done|].
  cbn [foldl]. apply IH. unfold to_excel.
  apply write_cells_writer_styled; [|done]. apply df_values_rect.
Qed.

Lemma max_column_bound L rs :
  1 ≤ L → Forall (λ r : list Cell, length r ≤ L) rs → max_column rs ≤ L.
Proof.
  intros HL Hlen. induction Hlen as [|r rs Hr Hlen IH]; [by rewrite max_column_nil|].
  rewrite max_column_cons. lia.
Qed.

Lemma max_column_writer_styled hs rs :
  writer_styled hs rs → rs ≠ [] → max_column rs = length (hd [] rs).
Proof.
  intros (_ & _ & Hlen & Hne) Hrs. destruct Hne as [->|Hone]; [done|].
  destruct rs as [|h t]; [done|]. cbn [hd] in *.
  apply Forall_cons in Hlen as [_ Hlen].
  pose proof (max_column_bound _ _ Hone Hlen). rewrite max_column_cons. lia.
Qed.

Lemma max_column_materialize rs : max_column (materialize rs) = max_column rs.
Proof.
  destruct rs as [|r rs]; [done|].
  apply max_column_rect; [apply max_column_ge1|done|apply pad_all_length].
Qed.

Lemma materialize_unfilled rs :
  Forall (Forall (λ c, fill c = default_fill)) rs →
  Forall (Forall (λ c, fill c = default_fill)) (materialize rs).
Proof.
  intros Hall. unfold materialize. apply Forall_forall. intros r' Hr'.
  apply list_elem_of_In, in_map_iff in Hr' as (r & <- & Hr).
  apply list_elem_of_In in Hr. apply pad_unfilled.
  by apply (proj1 (Forall_forall _ _) Hall).
Qed.

(** ** C8 *)

(** C8, as the code has it: the data-structures catalog script itself
    sets only column widths.  Every sheet of its file is a sheet of the
    writer, under the same name and in the same order, and each of its
    cells is the cell the writer wrote.  On every sheet no cell carries a
    fill, neither an auto-filter range nor a frozen pane is set, the
    cells below row 1 have the default font, alignment and border, and
    the cells of row 1 have the font, alignment and border of the header
    style the pandas writer applies (the defaults when it applies none):
    the script neither sets nor removes them.  A width is assigned to
    the columns of the sheet and to no other column. *)
Theorem datastructures_script_keeps_writer_cells
    (hs : option HeaderStyle) (tables : list Table) (path : string)
    (fs : gmap string Book) (book : Book) :
  rendered (generate_datastructures_catalog hs tables path fs) path = Some book →
  Forall2 (λ w s, s.1 = w.1
                  ∧ ∀ i j, cell_at s.2 i j = stored_cell (cell_at w.2 i j))
          (write_tables hs tables) book
  ∧ Forall (λ s,
              auto_filter_ref s.2 = None
              ∧ freeze_panes s.2 = None
              ∧ Forall (Forall (λ c, fill c = default_fill)) (rows s.2)
              ∧ Forall (λ c, font c = writer_font hs
                             ∧ alignment c = writer_alignment hs
                             ∧ border c = writer_border hs) (hd [] (rows s.2))
              ∧ Forall (Forall (λ c, font c = default_font
                                     ∧ alignment c = default_alignment
                                     ∧ border c = default_border)) (tl (rows s.2))
              ∧ (∀ k, (∀ j, j < max_column (rows s.2) → k ≠ get_column_letter (S j)) →
                      column_dimensions s.2 !! k = None))
           book.
Proof.
  rewrite rendered_ds. case_bool_decide; [done|]. intros [= <-].
  unfold ds_output, stored_book, adjust_book. rewrite map_map. split.
  - eapply Forall2_map_r_diag; [apply write_tables_plain|].
    intros [n w] _. cbn [fst snd]. split; [done|]. intros i j.
    unfold cell_at, stored_sheet, auto_adjust_widths, materialize.
    cbn [rows]. by rewrite cell_at_map, cell_at_pad.
  - apply Forall_forall. intros s Hs.
    apply list_elem_of_In, in_map_iff in Hs as ([n w] & <- & Hw).
    apply list_elem_of_In in Hw. cbn [fst snd].
    pose proof (proj1 (Forall_forall _ _) (write_tables_plain hs tables) _ Hw)
      as (Ha & Hf & Hd & Hfill).
    pose proof (proj1 (Forall_forall _ _) (write_tables_writer_styled hs tables) _ Hw)
      as Hstyled.
    cbn [snd] in *.
    cbn [stored_sheet auto_adjust_widths rows auto_filter_ref freeze_panes
         column_dimensions].
    split; [done|]. split; [done|].
    split; [by apply stored_rows_unfilled, materialize_unfilled|].
    assert (materialize (rows w)
            = hd [] (rows w) :: map (pad (max_column (rows w))) (tl (rows w))
            ∨ rows w = []) as [Hmat|Hnil].
    { destruct (decide (rows w = [])) as [Hnil|Hne]; [by right|left].
      pose proof (max_column_writer_styled hs (rows w) Hstyled Hne) as Hmax.
      unfold materialize. destruct (rows w) as [|h t]; [done|].
      cbn [map hd tl] in *. f_equal. apply pad_id. lia. }
    + destruct Hstyled as (Hhd & Htl & _). split; [|split].
      * rewrite Hmat. cbn [map hd]. apply Forall_forall. intros c Hc.
        apply list_elem_of_In, in_map_iff in Hc as (c0 & <- & Hc0).
        apply list_elem_of_In in Hc0.
        apply (proj1 (Forall_forall _ _) Hhd _ Hc0).
      * rewrite Hmat. cbn [map tl]. apply Forall_forall. intros r Hr.
        apply list_elem_of_In, in_map_iff in Hr as (r1 & <- & Hr1).
        apply in_map_iff in Hr1 as (r0 & <- & Hr0). apply list_elem_of_In in Hr0.
        apply Forall_forall. intros c Hc.
        apply list_elem_of_In, in_map_iff in Hc as (c0 & <- & Hc0).
        apply list_elem_of_In in Hc0. unfold pad in Hc0.
        apply elem_of_app in Hc0 as [Hc0|Hc0].
        -- apply (proj1 (Forall_forall _ _) (proj1 (Forall_forall _ _) Htl _ Hr0) _ Hc0).
        -- by apply elem_of_replicate in Hc0 as [-> _].
      * intros k Hk.
        rewrite max_column_stored, max_column_materialize in Hk.
        by rewrite adjust_column_widths_entries, assign_all_lookup,
          width_entries_missing, Hd.
    + rewrite Hnil. cbn. split; [done|]. split; [done|]. intros k _.
      by rewrite Hd.
Qed.

Lemma datastructures_script_keeps_writer_cells_witness :
  ∃ ws,
    ds_output (Some pandas_header_style) demo = [("Demo", ws)]
    ∧ auto_filter_ref ws = None
    ∧ freeze_panes ws = None
    ∧ Forall (λ c, font c = mkFont true None None) (hd [] (rows ws))
    ∧ Forall (Forall (λ c, border c = default_border)) (tl (rows ws)).
Proof.
  destruct (datastructures_script_keeps_writer_cells (Some pandas_header_style)
              demo "out.xlsx" ∅ (ds_output (Some pandas_header_style) demo))
    as [_ Hall].
  - vm_compute. reflexivity.
  - eexists. split; [vm_compute; reflexivity|].
    apply Forall_cons in Hall as [(Ha & Hf & _ & Hhd & Htl & _) _].
    split; [exact Ha|]. split; [exact Hf|]. split.
    + eapply Forall_impl; [exact Hhd|]. by intros c (Hfont & _).
    + eapply Forall_impl; [exact Htl|]. intros r Hr.
      eapply Forall_impl; [exact Hr|]. by intros c (_ & _ & Hb).
Defined.

(** With a writer that styles header cells, the header row of the
    data-structures file is not in the default style: its cells are bold
    and bordered, by the writer. *)
Lemma datastructures_header_carries_writer_style :
  ∃ ws,
    rendered (generate_datastructures_catalog (Some pandas_header_style) demo
                "out.xlsx" ∅) "out.xlsx" = Some [("Demo", ws)]
    ∧ value_of (cell_at ws 0 0) = VStr "Name"
    ∧ font (cell_at ws 0 0) ≠ default_font
    ∧ border (cell_at ws 0 0) ≠ default_border.
Proof.
  eexists. split; [vm_compute; reflexivity|]. split; [reflexivity|].
  split; discriminate.
Qed.
